(** * The upload handler of [main.py]: intake, analysis, delivery, cleanup

    A shallow embedding of the three coroutines of [main.py]
    ([upload_image], [analyze_image], [send_image_and_analysis_to_telegram])
    and of the library calls they make, followed by the properties of the
    request path.

    Conventions.
    - Python [str] is [string] (a byte string; case folding is ASCII),
      [bytes] is [list Byte.byte].
    - The transient storage is a finite map from paths to file contents.  A
      path whose last component is empty, [.] or [..] denotes a directory:
      opening it raises [IsADirectoryError].  Other failures of the file
      system (a name component over 255 bytes, a NUL in the name,
      permissions, a full disk) are not modelled: what is proved of a stored
      upload is proved from the success of the open.
    - A coroutine is a function in the monad [M]: it threads the storage and
      the trace of effects performed so far, and ends either with a value or
      with a raised exception.
    - Everything outside the process is a field of the record [World]: the
      mimetypes database, the inference endpoint, the messaging provider,
      the local clock, and what the other in-flight requests do to the
      storage while this one is suspended.  The other requests get their
      turn at the three network calls, where a request waits; the file
      operations of a request are taken as not interrupted.
    - The exceptions the providers can raise are subclasses of [Exception];
      cancellation of the coroutine is not modelled. *)

From Stdlib Require Import Strings.String Strings.Ascii Strings.Byte List ZArith Floats Bool Lia.
From Stdlib Require Import DecimalString.
From stdpp Require Import gmap strings.
Import ListNotations.

Set Warnings "-register-all,-inexact-float".

Open Scope string_scope.
Open Scope Z_scope.
Open Scope list_scope.

(** ** Python values *)

(** The objects that [response.json()] can produce and that the [json=]
    argument of a request is built from.  [PyNone] is Python's [None]. *)
Inductive pyobj :=
| PyNone
| PyBool (b : bool)
| PyInt (z : Z)
| PyFloat (f : float)
| PyStr (s : string)
| PyList (l : list pyobj)
| PyDict (kvs : list (string * pyobj)).

(** [bool(v)]: what [if not v] tests. *)
Definition truthy (v : pyobj) : bool :=
  match v with
  | PyNone => false
  | PyBool b => b
  | PyInt z => negb (z =? 0)
  | PyFloat f => negb (PrimFloat.eqb f 0%float)
  | PyStr s => negb (String.eqb s "")
  | PyList l => match l with [] => false | _ => true end
  | PyDict kvs => match kvs with [] => false | _ => true end
  end.

(** ** Exceptions *)

(** The exceptions that occur on the request path.  Every one of them is a
    subclass of [Exception], so [except Exception] catches each. *)
Inductive exn :=
| HTTPException (status_code : Z) (detail : string)
| FileNotFoundError (path : string)
| IsADirectoryError (path : string)
| TransportError (msg : string)    (* httpx: connection failure, timeout *)
| JSONDecodeError
| KeyError (key : string)
| IndexError
| TypeError
| TelegramError (msg : string)
| NetworkError (msg : string).      (* telegram.error.NetworkError *)

(** [isinstance(e, (TelegramError, NetworkError))]. *)
Definition is_telegram_error (e : exn) : bool :=
  match e with
  | TelegramError _ | NetworkError _ => true
  | _ => false
  end.

Inductive result (A : Type) :=
| Ok (a : A)
| Raise (e : exn).
Arguments Ok {A} a.
Arguments Raise {A} e.

(** ** Requests, responses, log records, effects *)

Record UploadFile := {
  content_type : option string;   (* declared in the multipart header *)
  filename : string;
  content : list Byte.byte              (* what [image.read()] returns *)
}.

Record http_request := {
  rq_url : string;
  rq_json : pyobj;
  rq_headers : list (string * string);
  rq_timeout : Z
}.

(** An HTTP response of the inference endpoint; [resp_json] is what
    [response.json()] decodes, [None] when the body is not JSON. *)
Record http_response := {
  resp_status : Z;
  resp_text : string;
  resp_json : option pyobj
}.

Inductive post_outcome :=
| Responded (r : http_response)
| PostRaises (e : exn).

Inductive response :=
| JSONResponse (body : pyobj) (status : Z).

Record datetime := {
  year : Z; month : Z; day : Z;
  hour : Z; minute : Z; second : Z; microsecond : Z
}.

Inductive level := INFO | ERROR.

(** One constructor per logging call of [main.py], with the values the
    message is formatted from. *)
Inductive log_record :=
| LogInvalidFormat
| LogImageSaved (filepath : string)
| LogInvalidContent
| LogAnalysisFailed
| LogTelegramFailed (e : exn)
| LogFileRemoved (filepath : string)
| LogAnalysisResult
| LogAnswer (answer : pyobj)
| LogLlamaError (status : Z) (text : string)
| LogAnalyzeException (e : exn)
| LogImageSent (chat_id timestamp : string)
| LogAnalysisSent (chat_id : string)
| LogTelegramError (e : exn).

(** The effects of a request, in the order they happen.  [EvCreate],
    [EvWrite] and [EvRemove] are storage operations that succeeded; the
    other three are calls issued. *)
Inductive event :=
| EvLog (lvl : level) (r : log_record)
| EvCreate (path : string)
| EvWrite (path : string) (data : list Byte.byte)
| EvRemove (path : string)
| EvPost (rq : http_request)
| EvSendPhoto (chat_id : string) (photo : list Byte.byte) (caption : string)
| EvSendMessage (chat_id : string) (text : pyobj).

Definition is_remove (path : string) (ev : event) : bool :=
  match ev with
  | EvRemove p => String.eqb p path
  | _ => false
  end.

Definition is_send (ev : event) : bool :=
  match ev with
  | EvSendPhoto _ _ _ | EvSendMessage _ _ => true
  | _ => false
  end.

Definition is_storage_write (ev : event) : bool :=
  match ev with
  | EvCreate _ | EvWrite _ _ => true
  | _ => false
  end.

Definition is_post (ev : event) : bool :=
  match ev with
  | EvPost _ => true
  | _ => false
  end.

(** How many times [path] was unlinked in a run of events. *)
Definition removals (path : string) (evs : list event) : nat :=
  List.length (List.filter (is_remove path) evs).

(** ** The world outside the process *)

Record Config := {
  TELEGRAM_CHAT_ID : string;
  GROQ_API_URL : string;
  GROQ_API_KEY : string
}.

(** The network calls on which a request is suspended. *)
Inductive await_point := AwaitInference | AwaitPhoto | AwaitMessage.

Record World := {
  cfg : Config;
  (* first component of mimetypes.guess_type(path) *)
  guess_type : string -> option string;
  (* httpx.AsyncClient.post *)
  post : http_request -> post_outcome;
  (* bot.send_photo / bot.send_message: None when the send completes *)
  send_photo : string -> list Byte.byte -> string -> option exn;
  send_message : string -> pyobj -> option exn;
  (* datetime.datetime.now(), local time, read when the effects performed
     so far are the given ones *)
  now : list event -> datetime;
  (* what the other in-flight requests do to the storage while this one
     waits at the given network call *)
  concurrent : await_point -> gmap string (list Byte.byte) -> gmap string (list Byte.byte)
}.

(** No other request touches the storage while this one runs. *)
Definition sequential (w : World) : Prop :=
  forall p m, concurrent w p m = m.

(** ** The monad of coroutines *)

Record State := {
  fs : gmap string (list Byte.byte);
  trace : list event
}.

Definition M (A : Type) : Type := State -> result A * State.

Definition ret {A} (a : A) : M A := fun s => (Ok a, s).

Definition raise {A} (e : exn) : M A := fun s => (Raise e, s).

Definition bind {A B} (m : M A) (k : A -> M B) : M B :=
  fun s =>
    match m s with
    | (Ok a, s') => k a s'
    | (Raise e, s') => (Raise e, s')
    end.

(** [try: m except Exception as e: h e]. *)
Definition try_except {A} (m : M A) (h : exn -> M A) : M A :=
  fun s =>
    match m s with
    | (Ok a, s') => (Ok a, s')
    | (Raise e, s') => h e s'
    end.

Notation "'do' x <- m ; k" := (bind m (fun x => k))
  (at level 10, x name, m at level 100, k at level 200).

Definition emit (ev : event) : M unit :=
  fun s => (Ok tt, {| fs := fs s; trace := trace s ++ [ev] |}).

Definition logging_error (r : log_record) : M unit := emit (EvLog ERROR r).
Definition logging_info (r : log_record) : M unit := emit (EvLog INFO r).

(** ** String helpers: [str.rfind], slices, [str.lower] *)

(** [s.rfind(c)]: the index of the last occurrence of [c], [-1] if none. *)
Fixpoint rfind (c : ascii) (s : string) : Z :=
  match s with
  | EmptyString => -1
  | String a rest =>
      let r := rfind c rest in
      if 0 <=? r then r + 1
      else if Ascii.eqb a c then 0 else -1
  end.

(** [s[n:]] and [s[:n]] for a natural [n]. *)
Fixpoint str_drop (n : nat) (s : string) : string :=
  match n, s with
  | O, _ => s
  | S n', String _ rest => str_drop n' rest
  | S _, EmptyString => EmptyString
  end.

Fixpoint str_take (n : nat) (s : string) : string :=
  match n, s with
  | O, _ => EmptyString
  | S n', String a rest => String a (str_take n' rest)
  | S _, EmptyString => EmptyString
  end.

(** [s[i:]], [s[:i]] and [s[i:j]] for indices that are not negative. *)
Definition slice_from (i : Z) (s : string) : string := str_drop (Z.to_nat i) s.
Definition slice_to (i : Z) (s : string) : string := str_take (Z.to_nat i) s.
Definition slice (i j : Z) (s : string) : string := slice_to (j - i) (slice_from i s).

Definition startswith (c : ascii) (s : string) : bool :=
  match s with
  | String a _ => Ascii.eqb a c
  | EmptyString => false
  end.

Fixpoint endswith (c : ascii) (s : string) : bool :=
  match s with
  | EmptyString => false
  | String a EmptyString => Ascii.eqb a c
  | String _ rest => endswith c rest
  end.

Definition lower_ascii (a : ascii) : ascii :=
  let n := nat_of_ascii a in
  if ((65 <=? n) && (n <=? 90))%nat then ascii_of_nat (n + 32) else a.

Fixpoint lower (s : string) : string :=
  match s with
  | EmptyString => EmptyString
  | String a rest => String (lower_ascii a) (lower rest)
  end.

Fixpoint assoc {V} (k : string) (kvs : list (string * V)) : option V :=
  match kvs with
  | [] => None
  | (k', v) :: rest => if String.eqb k' k then Some v else assoc k rest
  end.

(** ** [os.path] (posixpath) *)

Definition sep : ascii := "/"%char.
Definition extsep : ascii := "."%char.

(** [os.path.basename(p)]: [i = p.rfind('/') + 1; return p[i:]]. *)
Definition basename (p : string) : string :=
  let i := rfind sep p + 1 in
  slice_from i p.

(** [os.path.join(a, b)] for two components. *)
Definition join (a b : string) : string :=
  if startswith sep b then b
  else if String.eqb a "" || endswith sep a then a +:+ b
  else a +:+ String sep b.

(** The loop of [genericpath._splitext] over [p[sepIndex+1:dotIndex]]:
    is there a character that is not a dot? *)
Fixpoint has_non_dot (s : string) : bool :=
  match s with
  | EmptyString => false
  | String a rest => if Ascii.eqb a extsep then has_non_dot rest else true
  end.

(** [posixpath.splitext(p)]. *)
Definition splitext (p : string) : string * string :=
  let sepIndex := rfind sep p in
  let dotIndex := rfind extsep p in
  if (sepIndex <? dotIndex) && has_non_dot (slice (sepIndex + 1) dotIndex p)
  then (slice_to dotIndex p, slice_from dotIndex p)
  else (p, "").

(** ** [mimetypes] *)

Definition suffix_map : list (string * string) :=
  [ (".svgz", ".svg.gz"); (".tgz", ".tar.gz"); (".taz", ".tar.gz");
    (".tz", ".tar.gz"); (".tbz2", ".tar.bz2"); (".txz", ".tar.xz") ].

Definition encodings_map : list (string * string) :=
  [ (".gz", "gzip"); (".Z", "compress"); (".bz2", "bzip2");
    (".xz", "xz"); (".br", "br") ].

(** The entries of the default table for the types an upload is likely to
    carry; the three that map to [image/jpeg] are all the table has. *)
Definition types_map : list (string * string) :=
  [ (".js", "application/javascript"); (".json", "application/json");
    (".bin", "application/octet-stream"); (".pdf", "application/pdf");
    (".tar", "application/x-tar"); (".zip", "application/zip");
    (".bmp", "image/bmp"); (".gif", "image/gif");
    (".jpg", "image/jpeg"); (".jpe", "image/jpeg"); (".jpeg", "image/jpeg");
    (".png", "image/png"); (".svg", "image/svg+xml"); (".tiff", "image/tiff");
    (".tif", "image/tiff"); (".ico", "image/vnd.microsoft.icon");
    (".css", "text/css"); (".csv", "text/csv"); (".html", "text/html");
    (".htm", "text/html"); (".txt", "text/plain"); (".py", "text/x-python");
    (".xml", "text/xml"); (".mp4", "video/mp4") ].

(** The [while] loop over [suffix_map]; an entry never maps to a suffix that
    is itself an entry, so one round is all the loop runs, and [fuel] only
    bounds it. *)
Fixpoint expand_suffix (fuel : nat) (base ext : string) : string * string :=
  match fuel with
  | O => (base, ext)
  | S fuel' =>
      match assoc (lower ext) suffix_map with
      | Some full => let '(b, e) := splitext (base +:+ full) in expand_suffix fuel' b e
      | None => (base, ext)
      end
  end.

(** [mimetypes.guess_type(url)] for a [url] that has no scheme, which is the
    case of every path that starts with [./]: the pair (type, encoding). *)
Definition py_guess_type (url : string) : option string * option string :=
  let '(base, ext) := splitext url in
  let '(base, ext) := expand_suffix 2 base ext in
  let '(encoding, ext) :=
    match assoc ext encodings_map with
    | Some enc => (Some enc, snd (splitext base))
    | None => (None, ext)
    end in
  (assoc (lower ext) types_map, encoding).

(** ** [base64.b64encode] *)

Definition b64_alphabet : string :=
  "ABCDEFGHIJKLMNOPQRSTUVWXYZabcdefghijklmnopqrstuvwxyz0123456789+/".

Definition b64_char (n : Z) : ascii :=
  match String.get (Z.to_nat n) b64_alphabet with
  | Some a => a
  | None => "="%char
  end.

Definition byteZ (b : Byte.byte) : Z := Z.of_N (Byte.to_N b).

(** Three bytes give four characters; a final group of one or two bytes is
    padded with [=]. *)
Fixpoint b64encode (bs : list Byte.byte) : string :=
  match bs with
  | [] => ""
  | [a] =>
      let n := Z.shiftl (byteZ a) 16 in
      String (b64_char (Z.land (Z.shiftr n 18) 63))
        (String (b64_char (Z.land (Z.shiftr n 12) 63)) "==")
  | [a; b] =>
      let n := Z.lor (Z.shiftl (byteZ a) 16) (Z.shiftl (byteZ b) 8) in
      String (b64_char (Z.land (Z.shiftr n 18) 63))
        (String (b64_char (Z.land (Z.shiftr n 12) 63))
           (String (b64_char (Z.land (Z.shiftr n 6) 63)) "="))
  | a :: b :: c :: rest =>
      let n := Z.lor (Z.lor (Z.shiftl (byteZ a) 16) (Z.shiftl (byteZ b) 8)) (byteZ c) in
      String (b64_char (Z.land (Z.shiftr n 18) 63))
        (String (b64_char (Z.land (Z.shiftr n 12) 63))
           (String (b64_char (Z.land (Z.shiftr n 6) 63))
              (String (b64_char (Z.land n 63)) (b64encode rest))))
  end.

(** ** [datetime.strftime] *)

Definition digit (n : Z) : ascii := ascii_of_nat (48 + Z.to_nat (n mod 10)).

Definition two_digits (n : Z) : string :=
  String (digit (n / 10)) (String (digit n) "").

Definition four_digits (n : Z) : string :=
  String (digit (n / 1000)) (String (digit (n / 100)) (two_digits n)).

(** [%Y]: the year in decimal, not padded (the years of a [datetime] are
    1 to 9999). *)
Definition year_digits (n : Z) : string :=
  if n <? 10 then String (digit n) ""
  else if n <? 100 then two_digits n
  else if n <? 1000 then String (digit (n / 100)) (two_digits n)
  else four_digits n.

(** [d.strftime("%Y-%m-%d %H:%M:%S")]. *)
Definition strftime (d : datetime) : string :=
  year_digits (year d) +:+ "-" +:+ two_digits (month d) +:+ "-" +:+ two_digits (day d)
  +:+ " " +:+ two_digits (hour d) +:+ ":" +:+ two_digits (minute d) +:+ ":"
  +:+ two_digits (second d).

(** ** Storage: [aiofiles.open], [open], [aiofiles.os.remove] *)

(** A path whose last component is empty, [.] or [..] names a directory,
    not a file. *)
Definition directory_name (name : string) : bool :=
  String.eqb name "" || String.eqb name "." || String.eqb name "..".

Definition names_directory (path : string) : bool :=
  directory_name (basename path).

(** [open(path, "wb")]: creates the file or truncates it; the handle is the
    path. *)
Definition open_wb (path : string) : M string :=
  fun s =>
    if names_directory path then (Raise (IsADirectoryError path), s)
    else (Ok path, {| fs := <[path := []]> (fs s);
                      trace := trace s ++ [EvCreate path] |}).

(** [out_file.write(data)] followed by the close of the [with] block. *)
Definition file_write (handle : string) (data : list Byte.byte) : M unit :=
  fun s => (Ok tt, {| fs := <[handle := data]> (fs s);
                      trace := trace s ++ [EvWrite handle data] |}).

(** [open(path, "rb")] and the read of the whole file. *)
Definition read_rb (path : string) : M (list Byte.byte) :=
  fun s =>
    if names_directory path then (Raise (IsADirectoryError path), s)
    else match fs s !! path with
         | Some data => (Ok data, s)
         | None => (Raise (FileNotFoundError path), s)
         end.

(** [os.remove(path)]: unlinks the file, and raises when there is none. *)
Definition os_remove (path : string) : M unit :=
  fun s =>
    if names_directory path then (Raise (IsADirectoryError path), s)
    else match fs s !! path with
         | Some _ => (Ok tt, {| fs := delete path (fs s);
                                trace := trace s ++ [EvRemove path] |})
         | None => (Raise (FileNotFoundError path), s)
         end.

(** ** Python subscripts and [response.json()] *)

Definition lift {A} (r : result A) : M A := fun s => (r, s).

(** [v[key]] for a string key. *)
Definition getitem (v : pyobj) (key : string) : result pyobj :=
  match v with
  | PyDict kvs =>
      match assoc key kvs with
      | Some x => Ok x
      | None => Raise (KeyError key)
      end
  | _ => Raise TypeError
  end.

(** [v[0]].  A dict decoded from JSON has string keys only, so the integer
    key is never found. *)
Definition getitem0 (v : pyobj) : result pyobj :=
  match v with
  | PyList (x :: _) => Ok x
  | PyList [] => Raise IndexError
  | PyStr (String a _) => Ok (PyStr (String a ""))
  | PyStr EmptyString => Raise IndexError
  | PyDict _ => Raise (KeyError "0")
  | _ => Raise TypeError
  end.

Definition response_json (r : http_response) : result pyobj :=
  match resp_json r with
  | Some v => Ok v
  | None => Raise JSONDecodeError
  end.

Definition rbind {A B} (r : result A) (k : A -> result B) : result B :=
  match r with
  | Ok a => k a
  | Raise e => Raise e
  end.

(** [body["choices"][0]["message"]["content"]]. *)
Definition first_choice_content (body : pyobj) : result pyobj :=
  rbind (getitem body "choices") (fun choices =>
  rbind (getitem0 choices) (fun choice =>
  rbind (getitem choice "message") (fun message =>
  getitem message "content"))).

(** ** Module-level constants *)

Definition dq : string := String "034"%char "".
Definition nl : string := String "010"%char "".
Definition q (s : string) : string := dq +:+ s +:+ dq.

(** The prompt literal, line by line ([q s] is [s] in double quotes). *)
Definition _prompt_ : string :=
  String.concat nl
  [ "";
    "{";
    "  " +:+ q "input" +:+ ": " +:+ q "Image captured by camera." +:+ ",";
    "  " +:+ q "task" +:+ ": " +:+ q "Analyze the image looking for birds." +:+ ",";
    "  " +:+ q "output_format" +:+ ": {";
    "    " +:+ q "detected" +:+ ": " +:+ q "boolean" +:+ ",";
    "    " +:+ q "description" +:+ ": " +:+ q "string (brief description if birds detected)";
    "  },";
    "  " +:+ q "instructions" +:+ ": " +:+ q "Do you see little birds standing on the trees?" +:+ ",";
    "  " +:+ q "example_output_1" +:+ ": {";
    "    " +:+ q "detected" +:+ ": " +:+ q "yes" +:+ ",";
    "    " +:+ q "description" +:+ ": " +:+ q "two little birds stands side by side on the tree.";
    "  },";
    "  " +:+ q "example_output_2" +:+ ": {";
    "    " +:+ q "detected" +:+ ": " +:+ q "yes" +:+ ",";
    "    " +:+ q "description" +:+ ": " +:+ q "a flying bird is flying away from the tree.";
    "  },";
    "  " +:+ q "example_output_3" +:+ ": {";
    "    " +:+ q "detected" +:+ ": " +:+ q "no" +:+ ",";
    "    " +:+ q "description" +:+ ": " +:+ q "no sign of birds on the trees.";
    "  }";
    "}";
    "" ].

Definition UPLOAD_FOLDER : string := "./uploads".

Definition ALLOWED_MIME_TYPES : gset string := {[ "image/jpeg" ]}.

(** [t not in ALLOWED_MIME_TYPES], for a [t] that is a string or [None]. *)
Definition not_allowed (t : option string) : bool :=
  match t with
  | Some x => negb (bool_decide (x ∈ ALLOWED_MIME_TYPES))
  | None => true
  end.

(** ** The coroutines *)

Section Coroutines.

Variable w : World.

(** A network call returns after the other requests had their turn. *)
Definition suspend (p : await_point) : M unit :=
  fun s => (Ok tt, {| fs := concurrent w p (fs s); trace := trace s |}).

Definition client_post (rq : http_request) : M http_response :=
  do _ <- emit (EvPost rq) ;
  do _ <- suspend AwaitInference ;
  match post w rq with
  | Responded r => ret r
  | PostRaises e => raise e
  end.

Definition bot_send_photo (chat_id : string) (photo : list Byte.byte)
    (caption : string) : M unit :=
  do _ <- emit (EvSendPhoto chat_id photo caption) ;
  do _ <- suspend AwaitPhoto ;
  match send_photo w chat_id photo caption with
  | None => ret tt
  | Some e => raise e
  end.

Definition bot_send_message (chat_id : string) (text : pyobj) : M unit :=
  do _ <- emit (EvSendMessage chat_id text) ;
  do _ <- suspend AwaitMessage ;
  match send_message w chat_id text with
  | None => ret tt
  | Some e => raise e
  end.

Definition datetime_now : M datetime :=
  fun s => (Ok (now w (trace s)), s).

Definition analyze_image (image_path prompt : string) : M pyobj :=
  try_except
    (do image_content <- read_rb image_path ;
     let encoded_image := b64encode image_content in
     let messages :=
       PyList
         [ PyDict
             [ ("role", PyStr "user");
               ("content",
                PyList
                  [ PyDict [ ("type", PyStr "text"); ("text", PyStr prompt) ];
                    PyDict
                      [ ("type", PyStr "image_url");
                        ("image_url",
                         PyDict
                           [ ("url",
                              PyStr ("data:image/jpeg;base64," +:+ encoded_image)) ]) ] ]) ] ] in
     do response <-
       client_post
         {| rq_url := GROQ_API_URL (cfg w);
            rq_json :=
              PyDict
                [ ("model", PyStr "llama-3.2-11b-vision-preview");
                  ("messages", messages);
                  ("temperature", PyFloat 0.1%float);
                  ("max_tokens", PyInt 1000) ];
            rq_headers :=
              [ ("Authorization", "Bearer " +:+ GROQ_API_KEY (cfg w));
                ("Content-Type", "application/json") ];
            rq_timeout := 30 |} ;
     if resp_status response =? 200 then
       do body <- lift (response_json response) ;
       do answer <- lift (first_choice_content body) ;
       do _ <- logging_info LogAnalysisResult ;
       do _ <- logging_info (LogAnswer answer) ;
       ret answer
     else
       do _ <- logging_error (LogLlamaError (resp_status response) (resp_text response)) ;
       ret PyNone)
    (fun e =>
       do _ <- logging_error (LogAnalyzeException e) ;
       ret PyNone).

Definition send_image_and_analysis_to_telegram (image_path : string)
    (analysis_result : pyobj) : M unit :=
  try_except
    (do d <- datetime_now ;
     let timestamp := strftime d in
     do image_file <- read_rb image_path ;
     do _ <- bot_send_photo (TELEGRAM_CHAT_ID (cfg w)) image_file timestamp ;
     do _ <- logging_info (LogImageSent (TELEGRAM_CHAT_ID (cfg w)) timestamp) ;
     do _ <- bot_send_message (TELEGRAM_CHAT_ID (cfg w)) analysis_result ;
     logging_info (LogAnalysisSent (TELEGRAM_CHAT_ID (cfg w))))
    (fun e =>
       if is_telegram_error e then
         do _ <- logging_error (LogTelegramError e) ;
         raise e
       else raise e).

Definition upload_image (image : UploadFile) : M response :=
  let content_type := content_type image in
  if not_allowed content_type then
    do _ <- logging_error LogInvalidFormat ;
    raise (HTTPException 400 "Invalid file format, only JPEG images are accepted")
  else
    let filename := basename (filename image) in
    let filepath := join UPLOAD_FOLDER filename in
    do out_file <- open_wb filepath ;
    do _ <- file_write out_file (content image) ;
    do _ <- logging_info (LogImageSaved filepath) ;
    let mime_type := guess_type w filepath in
    if not_allowed mime_type then
      do _ <- os_remove filepath ;
      do _ <- logging_error LogInvalidContent ;
      raise (HTTPException 400 "Invalid image content")
    else
      do analysis_result <- analyze_image filepath _prompt_ ;
      if negb (truthy analysis_result) then
        do _ <- os_remove filepath ;
        do _ <- logging_error LogAnalysisFailed ;
        raise (HTTPException 500 "Failed to analyze the image")
      else
        do _ <-
          try_except
            (send_image_and_analysis_to_telegram filepath analysis_result)
            (fun e =>
               do _ <- logging_error (LogTelegramFailed e) ;
               do _ <- os_remove filepath ;
               raise (HTTPException 500 "Failed to send image to Telegram")) ;
        do _ <- os_remove filepath ;
        do _ <- logging_info (LogFileRemoved filepath) ;
        ret (JSONResponse
               (PyDict [ ("message",
                          PyStr "Image received, analyzed, and forwarded to Telegram") ])
               200).

End Coroutines.
(** ** Sample worlds and uploads *)

Definition bytes_of (s : string) : list Byte.byte := list_byte_of_string s.

Definition sample_cfg : Config :=
  {| TELEGRAM_CHAT_ID := "-100200300";
     GROQ_API_URL := "https://api.groq.com/openai/v1/chat/completions";
     GROQ_API_KEY := "gsk_key" |}.

(** A chat-completion body whose first choice carries [answer]. *)
Definition completion (answer : pyobj) : pyobj :=
  PyDict
    [ ("id", PyStr "chatcmpl-1");
      ("choices",
       PyList
         [ PyDict
             [ ("index", PyInt 0);
               ("message",
                PyDict [ ("role", PyStr "assistant"); ("content", answer) ]) ] ]) ].

Definition http_ok (body : pyobj) : post_outcome :=
  Responded {| resp_status := 200; resp_text := "{...}"; resp_json := Some body |}.

Definition http_unavailable : post_outcome :=
  Responded {| resp_status := 503; resp_text := "Service Unavailable"; resp_json := None |}.

Definition noon : datetime :=
  {| year := 2024; month := 11; day := 5;
     hour := 12; minute := 0; second := 7; microsecond := 250000 |}.

(** A world with Python's mimetypes table, a clock stopped at [noon] and the
    given behaviour of the two providers and of the other requests. *)
Definition world_of (inference : post_outcome) (photo message : option exn)
    (others : await_point -> gmap string (list Byte.byte) -> gmap string (list Byte.byte))
    : World :=
  {| cfg := sample_cfg;
     guess_type := fun path => fst (py_guess_type path);
     post := fun _ => inference;
     send_photo := fun _ _ _ => photo;
     send_message := fun _ _ => message;
     now := fun _ => noon;
     concurrent := others |}.

Definition nobody : await_point -> gmap string (list Byte.byte) -> gmap string (list Byte.byte) :=
  fun _ m => m.

Definition no_birds : pyobj := PyStr "no sign of birds on the trees.".

Definition happy_world : World := world_of (http_ok (completion no_birds)) None None nobody.

Definition jpeg_bytes : list Byte.byte :=
  [ Byte.xff; Byte.xd8; Byte.xff; Byte.xe0; Byte.x00; Byte.x10 ].

Definition photo_jpg : UploadFile :=
  {| content_type := Some "image/jpeg"; filename := "photo.jpg"; content := jpeg_bytes |}.

Definition fake_jpg : UploadFile :=
  {| content_type := Some "image/jpeg"; filename := "fake.jpg";
     content := bytes_of "just some text" |}.

Definition doc_pdf : UploadFile :=
  {| content_type := Some "application/pdf"; filename := "doc.pdf";
     content := bytes_of "%PDF-1.4" |}.

Definition dotdot_jpg : UploadFile :=
  {| content_type := Some "image/jpeg"; filename := "photos/.."; content := jpeg_bytes |}.

Definition empty_state : State := {| fs := ∅; trace := [] |}.

(** A state in which an earlier upload of the same name is still stored. *)
Definition busy_state : State :=
  {| fs := {[ "./uploads/photo.jpg" := bytes_of "an older upload" ]}; trace := [] |}.

(** While this request waits for the inference endpoint, another request
    that stored the same name finishes and removes the file. *)
Definition racing : await_point -> gmap string (list Byte.byte) -> gmap string (list Byte.byte) :=
  fun pt m =>
    match pt with
    | AwaitInference => delete "./uploads/photo.jpg" m
    | _ => m
    end.

Definition racing_world : World := world_of http_unavailable None None racing.

(** The inference endpoint is down. *)
Definition unavailable_world : World := world_of http_unavailable None None nobody.

(** The inference endpoint answers 200 with an empty content. *)
Definition silent_world : World := world_of (http_ok (completion (PyStr ""))) None None nobody.

(** The inference endpoint answers, and the photo send times out. *)
Definition unreachable_chat_world : World :=
  world_of (http_ok (completion no_birds)) (Some (NetworkError "Timed out")) None nobody.

(** ** States and requests that the properties speak of *)

(** Where the handler stores an upload. *)
Definition storage_path (image : UploadFile) : string :=
  join UPLOAD_FOLDER (basename (filename image)).

Definition add_events (s : State) (evs : list event) : State :=
  {| fs := fs s; trace := trace s ++ evs |}.

(** The state when the upload has been written and the write logged
    (lines 80-88 of [upload_image]). *)
Definition saved (image : UploadFile) (s : State) : State :=
  let p := storage_path image in
  {| fs := <[p := content image]> (<[p := []]> (fs s));
     trace := trace s ++ [EvCreate p; EvWrite p (content image);
                          EvLog INFO (LogImageSaved p)] |}.

(** The request the Analyzer is to send for an image. *)
Definition inference_request (c : Config) (prompt : string)
    (image_content : list Byte.byte) : http_request :=
  {| rq_url := GROQ_API_URL c;
     rq_json :=
       PyDict
         [ ("model", PyStr "llama-3.2-11b-vision-preview");
           ("messages",
            PyList
              [ PyDict
                  [ ("role", PyStr "user");
                    ("content",
                     PyList
                       [ PyDict [ ("type", PyStr "text"); ("text", PyStr prompt) ];
                         PyDict
                           [ ("type", PyStr "image_url");
                             ("image_url",
                              PyDict
                                [ ("url",
                                   PyStr ("data:image/jpeg;base64,"
                                          +:+ b64encode image_content)) ]) ] ]) ] ]);
           ("temperature", PyFloat 0.1%float);
           ("max_tokens", PyInt 1000) ];
     rq_headers :=
       [ ("Authorization", "Bearer " +:+ GROQ_API_KEY c);
         ("Content-Type", "application/json") ];
     rq_timeout := 30 |}.

(** What the Analyzer returns and logs for an outcome of the inference call. *)
Definition analysis_of (o : post_outcome) : pyobj * list event :=
  match o with
  | PostRaises e => (PyNone, [EvLog ERROR (LogAnalyzeException e)])
  | Responded r =>
      if resp_status r =? 200 then
        match rbind (response_json r) first_choice_content with
        | Ok answer =>
            (answer, [EvLog INFO LogAnalysisResult; EvLog INFO (LogAnswer answer)])
        | Raise e => (PyNone, [EvLog ERROR (LogAnalyzeException e)])
        end
      else (PyNone, [EvLog ERROR (LogLlamaError (resp_status r) (resp_text r))])
  end.

(** The inference call failed: a network failure, a status other than 200,
    or a body from which the answer cannot be extracted. *)
Definition inference_failed (o : post_outcome) : Prop :=
  match o with
  | PostRaises _ => True
  | Responded r =>
      resp_status r <> 200 \/
      exists e, rbind (response_json r) first_choice_content = Raise e
  end.

(** The handler from the content check on (lines 90-119 of [upload_image]),
    as a function of the path the upload was saved at. *)
Definition after_save (w : World) (filepath : string) : M response :=
  let mime_type := guess_type w filepath in
  if not_allowed mime_type then
    do _ <- os_remove filepath ;
    do _ <- logging_error LogInvalidContent ;
    raise (HTTPException 400 "Invalid image content")
  else
    do analysis_result <- analyze_image w filepath _prompt_ ;
    if negb (truthy analysis_result) then
      do _ <- os_remove filepath ;
      do _ <- logging_error LogAnalysisFailed ;
      raise (HTTPException 500 "Failed to analyze the image")
    else
      do _ <-
        try_except
          (send_image_and_analysis_to_telegram w filepath analysis_result)
          (fun e =>
             do _ <- logging_error (LogTelegramFailed e) ;
             do _ <- os_remove filepath ;
             raise (HTTPException 500 "Failed to send image to Telegram")) ;
      do _ <- os_remove filepath ;
      do _ <- logging_info (LogFileRemoved filepath) ;
      ret (JSONResponse
             (PyDict [ ("message",
                        PyStr "Image received, analyzed, and forwarded to Telegram") ])
             200).

(** The four responses of a request whose upload was stored. *)
Definition invalid_content : result response :=
  Raise (HTTPException 400 "Invalid image content").
Definition analysis_failed : result response :=
  Raise (HTTPException 500 "Failed to analyze the image").
Definition delivery_failed : result response :=
  Raise (HTTPException 500 "Failed to send image to Telegram").
Definition success : result response :=
  Ok (JSONResponse
        (PyDict [ ("message",
                   PyStr "Image received, analyzed, and forwarded to Telegram") ])
        200).

Definition responded (r : result response) : Prop :=
  r = invalid_content \/ r = analysis_failed \/ r = delivery_failed \/ r = success.

(** ** Process start (the module level of [main.py]) *)

(** What the module holds once it is loaded: the bot token, the root path
    of the application and the configuration the coroutines read. *)
Record Settings := {
  TELEGRAM_TOKEN : string;
  ROOT_PATH : string;
  settings : Config
}.

Inductive start :=
| Started (st : Settings)
| StartFails (message : string).     (* raise Exception(message) *)

(** [not v] for [v = os.environ.get(name)]: the variable is missing or
    empty. *)
Definition unset (v : option string) : bool :=
  match v with
  | Some x => String.eqb x ""
  | None => true
  end.

(** The module-level statements, lines 44-63, over [os.environ]. *)
Definition load_module (environ : gmap string string) : start :=
  let token := environ !! "TELEGRAM_TOKEN" in
  let chat_id := environ !! "TELEGRAM_CHAT_ID" in
  if unset token || unset chat_id then
    StartFails "TELEGRAM_TOKEN and TELEGRAM_CHAT_ID must be set as environment variables."
  else
    let api_url := environ !! "GROQ_API_URL" in
    let api_key := environ !! "GROQ_API_KEY" in
    if unset api_url || unset api_key then
      StartFails "GROQ_API_URL and GROQ_API_KEY must be set as environment variables."
    else
      Started
        {| TELEGRAM_TOKEN := default "" token;
           ROOT_PATH := default "/firebot" (environ !! "ROOT_PATH");
           settings := {| TELEGRAM_CHAT_ID := default "" chat_id;
                          GROQ_API_URL := default "" api_url;
                          GROQ_API_KEY := default "" api_key |} |}.

Definition sample_environ : gmap string string :=
  {[ "TELEGRAM_TOKEN" := "123456:bot-token";
     "TELEGRAM_CHAT_ID" := "-100200300";
     "GROQ_API_URL" := "https://api.groq.com/openai/v1/chat/completions";
     "GROQ_API_KEY" := "gsk_key" ]}.

(** ** Readings of a run *)

Definition is_error_log (ev : event) : bool :=
  match ev with
  | EvLog ERROR _ => true
  | _ => false
  end.

(** A storage operation on a path other than [path]? *)
Definition off_path (path : string) (ev : event) : bool :=
  match ev with
  | EvCreate p | EvWrite p _ | EvRemove p => negb (String.eqb p path)
  | _ => false
  end.

(** The sends of a run are none, a photo, or a photo and then a text, both
    to the same chat. *)
Definition photo_then_text (sends : list event) : Prop :=
  sends = [] \/
  (exists chat photo caption, sends = [EvSendPhoto chat photo caption]) \/
  (exists chat photo caption text,
     sends = [EvSendPhoto chat photo caption; EvSendMessage chat text]).

(** The end of every path of the handler after the save: the events [pre],
    then the unlink; when the file is there the result is [r] and [post]
    follows, when it is gone [FileNotFoundError] is raised. *)
Definition finish (p : string) (s : State) (pre : list event)
    (r : result response) (post : list event) : result response * State :=
  match fs s !! p with
  | Some _ =>
      (r, {| fs := delete p (fs s); trace := trace s ++ pre ++ EvRemove p :: post |})
  | None =>
      (Raise (FileNotFoundError p), {| fs := fs s; trace := trace s ++ pre |})
  end.

(** More sample uploads and worlds. *)

(** A genuine JPEG stream stored under a name with another extension. *)
Definition photo_png : UploadFile :=
  {| content_type := Some "image/jpeg"; filename := "photo.png"; content := jpeg_bytes |}.

Definition traversal_jpg : UploadFile :=
  {| content_type := Some "image/jpeg"; filename := "../../etc/cron.d/photo.jpg";
     content := jpeg_bytes |}.

Definition trailing_slash : UploadFile :=
  {| content_type := Some "image/jpeg"; filename := "album/"; content := jpeg_bytes |}.

(** The inference endpoint answers 200 with a JSON [null] content. *)
Definition null_world : World := world_of (http_ok (completion PyNone)) None None nobody.

(** The photo send is refused by the provider. *)
Definition refusing_chat_world : World :=
  world_of (http_ok (completion no_birds)) (Some (TelegramError "Bad Request")) None nobody.

(** ** Reference readings of a timestamp and of the calls of a run *)

(** The fields of a [datetime] are in range. *)
Definition valid_datetime (d : datetime) : Prop :=
  1 <= year d <= 9999 /\ 1 <= month d <= 12 /\ 1 <= day d <= 31 /\
  0 <= hour d <= 23 /\ 0 <= minute d <= 59 /\ 0 <= second d <= 59.

(** The decimal numeral of a number, as the standard library prints it,
    and the same padded with a zero to two places. *)
Definition decimal (n : Z) : string :=
  NilZero.string_of_uint (N.to_uint (Z.to_N n)).

Definition zero_padded (n : Z) : string :=
  if n <? 10 then "0" +:+ decimal n else decimal n.

(** A call to one of the two providers. *)
Definition is_call (ev : event) : bool := is_post ev || is_send ev.

(** The calls of a run, in the order they were made, are a beginning of:
    one inference request, one photo, one text to the same chat. *)
Definition calls_in_order (calls : list event) : Prop :=
  calls = [] \/
  exists rq,
    calls = [EvPost rq] \/
    exists chat photo caption,
      calls = [EvPost rq; EvSendPhoto chat photo caption] \/
      exists text,
        calls = [EvPost rq; EvSendPhoto chat photo caption; EvSendMessage chat text].

(** * Properties *)

(** ** Strings and paths *)

(** The library models agree with the library on its documented cases. *)
Example basename_cases :
  basename "a/b/c.jpg" = "c.jpg" /\ basename "/foo/bar/" = "" /\
  basename "photo.jpg" = "photo.jpg" /\ basename "../../etc/passwd" = "passwd" /\
  basename "photos/.." = "..".
Proof. repeat split. Qed.

Example splitext_cases :
  splitext "./uploads/a.jpg" = ("./uploads/a", ".jpg") /\
  splitext "./uploads/.jpg" = ("./uploads/.jpg", "") /\
  splitext "./up.loads/a" = ("./up.loads/a", "") /\
  splitext "a.tar.gz" = ("a.tar", ".gz").
Proof. repeat split. Qed.

Example py_guess_type_cases :
  py_guess_type "./uploads/fake.jpg" = (Some "image/jpeg", None) /\
  py_guess_type "./uploads/x.JPEG" = (Some "image/jpeg", None) /\
  py_guess_type "./uploads/x.jpg.gz" = (Some "image/jpeg", Some "gzip") /\
  py_guess_type "./uploads/a.tgz" = (Some "application/x-tar", Some "gzip") /\
  py_guess_type "./uploads/notes.txt" = (Some "text/plain", None) /\
  py_guess_type "./uploads/jpg" = (None, None).
Proof. repeat split. Qed.

(** The test vectors of RFC 4648, and the start of a JPEG file. *)
Example b64encode_rfc4648 :
  List.map (fun t => b64encode (list_byte_of_string t))
    [ ""; "f"; "fo"; "foo"; "foob"; "fooba"; "foobar" ] =
  [ ""; "Zg=="; "Zm8="; "Zm9v"; "Zm9vYg=="; "Zm9vYmE="; "Zm9vYmFy" ] /\
  b64encode [ Byte.xff; Byte.xd8; Byte.xff; Byte.xe0 ] = "/9j/4A==".
Proof. split; vm_compute; reflexivity. Qed.

Example strftime_noon : strftime noon = "2024-11-05 12:00:07".
Proof. reflexivity. Qed.

(** The year is not padded. *)
Example strftime_year_999 :
  strftime {| year := 999; month := 1; day := 2; hour := 3; minute := 4; second := 5;
              microsecond := 0 |} = "999-01-02 03:04:05".
Proof. reflexivity. Qed.

Example truthy_cases :
  truthy PyNone = false /\ truthy (PyStr "") = false /\ truthy (PyStr "no") = true /\
  truthy (PyInt 0) = false /\ truthy (PyFloat 0%float) = false /\
  truthy (PyList []) = false /\ truthy (PyDict []) = false /\
  truthy (PyBool false) = false.
Proof. repeat split. Qed.


Lemma rfind_ge (c : ascii) (s : string) : -1 <= rfind c s.
Proof.
  induction s as [|a rest IH]; simpl; [lia|].
  destruct (0 <=? rfind c rest) eqn:E.
  - apply Z.leb_le in E. lia.
  - destruct (Ascii.eqb a c); lia.
Qed.

Lemma rfind_none_cons (c a : ascii) (rest : string) :
  rfind c (String a rest) = -1 <-> Ascii.eqb a c = false /\ rfind c rest = -1.
Proof.
  simpl. pose proof (rfind_ge c rest) as Hge.
  destruct (0 <=? rfind c rest) eqn:E.
  - apply Z.leb_le in E. split; [lia | intros [_ H]; lia].
  - apply Z.leb_gt in E. destruct (Ascii.eqb a c); split; try lia; intuition (try lia; try discriminate).
Qed.

(** The suffix that starts after the last occurrence of [c] has no [c]. *)
Lemma rfind_slice_after_last (c : ascii) (s : string) :
  rfind c (slice_from (rfind c s + 1) s) = -1.
Proof.
  unfold slice_from.
  induction s as [|a rest IH]; [reflexivity|].
  pose proof (rfind_ge c rest) as Hge.
  cbn [rfind].
  destruct (0 <=? rfind c rest) eqn:E.
  - apply Z.leb_le in E.
    replace (Z.to_nat (rfind c rest + 1 + 1)) with (S (Z.to_nat (rfind c rest + 1))) by lia.
    exact IH.
  - apply Z.leb_gt in E. assert (Hr : rfind c rest = -1) by lia.
    destruct (Ascii.eqb a c) eqn:Ea.
    + change (Z.to_nat (0 + 1)) with 1%nat. cbn [str_drop]. exact Hr.
    + change (Z.to_nat (-1 + 1)) with 0%nat. cbn [str_drop].
      apply rfind_none_cons. split; assumption.
Qed.

(** The storage name has no separator in it. *)
Lemma basename_no_sep (p : string) : rfind sep (basename p) = -1.
Proof. apply rfind_slice_after_last. Qed.

Lemma str_take_drop (n : nat) (s : string) : str_take n s +:+ str_drop n s = s.
Proof.
  revert s. induction n as [|n IH]; intros s; [reflexivity|].
  destruct s as [|a rest]; [reflexivity|].
  change (String a (str_take n rest +:+ str_drop n rest) = String a rest).
  f_equal. apply IH.
Qed.

(** The supplied name is a directory part followed by the storage name. *)
Lemma basename_suffix (p : string) :
  p = slice_to (rfind sep p + 1) p +:+ basename p.
Proof. unfold basename, slice_to, slice_from. now rewrite str_take_drop. Qed.

Lemma startswith_rfind (c : ascii) (s : string) :
  rfind c s = -1 -> startswith c s = false.
Proof.
  destruct s as [|a rest]; [reflexivity|].
  intros H. apply rfind_none_cons in H. apply H.
Qed.

(** Joining the upload folder and a storage name puts the name right under
    the folder. *)
Lemma storage_path_eq (image : UploadFile) :
  storage_path image = "./uploads/" +:+ basename (filename image).
Proof.
  unfold storage_path, join.
  rewrite (startswith_rfind _ _ (basename_no_sep (filename image))).
  reflexivity.
Qed.

(** ** The primitives *)

Lemma not_allowed_false (t : option string) :
  not_allowed t = false <-> t = Some "image/jpeg".
Proof.
  destruct t as [x|]; simpl; [|split; discriminate].
  rewrite negb_false_iff, bool_decide_eq_true.
  unfold ALLOWED_MIME_TYPES. rewrite elem_of_singleton.
  split; congruence.
Qed.

Lemma not_allowed_true (t : option string) :
  not_allowed t = true <-> t <> Some "image/jpeg".
Proof.
  rewrite <- not_allowed_false. destruct (not_allowed t); split; congruence.
Qed.

Lemma removals_app (path : string) (l1 l2 : list event) :
  removals path (l1 ++ l2) = (removals path l1 + removals path l2)%nat.
Proof. unfold removals. now rewrite List.filter_app, List.length_app. Qed.

(** ** The Analyzer, case by case *)

Ltac run_monad :=
  cbv beta iota zeta delta
    [bind ret raise lift emit logging_error logging_info try_except add_events];
  cbn [fs trace fst snd]; rewrite <- ?app_assoc; cbn [app].

(** With the image readable, the Analyzer sends one request and its result
    and log follow [analysis_of]. *)
Lemma analyze_image_run (w : World) (path prompt : string) (s : State)
    (data : list Byte.byte) :
  names_directory path = false ->
  fs s !! path = Some data ->
  analyze_image w path prompt s =
    (Ok (fst (analysis_of (post w (inference_request (cfg w) prompt data)))),
     {| fs := concurrent w AwaitInference (fs s);
        trace := trace s ++
                 EvPost (inference_request (cfg w) prompt data)
                 :: snd (analysis_of (post w (inference_request (cfg w) prompt data))) |}).
Proof.
  intros Hd Hp.
  unfold analyze_image, try_except, bind at 1, read_rb. rewrite Hd, Hp.
  fold (inference_request (cfg w) prompt data).
  set (rq := inference_request (cfg w) prompt data).
  unfold client_post, suspend. run_monad.
  unfold analysis_of.
  destruct (post w rq) as [r|e]; run_monad; [|reflexivity].
  destruct (resp_status r =? 200); run_monad; [|reflexivity].
  destruct (response_json r) as [body|e]; cbn [rbind]; run_monad; [|reflexivity].
  destruct (first_choice_content body) as [answer|e]; run_monad; reflexivity.
Qed.

(** With the image unreadable, no request is sent. *)
Lemma analyze_image_unreadable (w : World) (path prompt : string) (s : State) (e : exn) :
  fst (read_rb path s) = Raise e ->
  analyze_image w path prompt s =
    (Ok PyNone, add_events s [EvLog ERROR (LogAnalyzeException e)]).
Proof.
  intros Hr. unfold analyze_image, try_except, bind at 1.
  assert (Hs : read_rb path s = (Raise e, s)).
  { revert Hr. unfold read_rb.
    destruct (names_directory path); [cbn; congruence|].
    destruct (fs s !! path); cbn; congruence. }
  rewrite Hs. reflexivity.
Qed.

Lemma read_rb_cases (path : string) (s : State) :
  (exists data, names_directory path = false /\ fs s !! path = Some data) \/
  (exists e, fst (read_rb path s) = Raise e).
Proof.
  unfold read_rb. destruct (names_directory path); [right; eauto|].
  destruct (fs s !! path) as [data|]; [left; eauto | right; eauto].
Qed.

(** The Analyzer never raises. *)
Lemma analyze_image_total (w : World) (path prompt : string) (s : State) :
  exists v s', analyze_image w path prompt s = (Ok v, s').
Proof.
  destruct (read_rb_cases path s) as [(data & Hd & Hp) | (e & He)].
  - rewrite (analyze_image_run w path prompt s data Hd Hp). eauto.
  - rewrite (analyze_image_unreadable w path prompt s e He). eauto.
Qed.

Lemma analysis_of_failed (o : post_outcome) :
  inference_failed o ->
  fst (analysis_of o) = PyNone /\
  exists r, snd (analysis_of o) = [EvLog ERROR r].
Proof.
  destruct o as [r|e]; cbn [inference_failed analysis_of].
  - intros [Hst | [e He]].
    + apply Z.eqb_neq in Hst. rewrite Hst. cbn. eauto.
    + destruct (resp_status r =? 200); [rewrite He|]; cbn; eauto.
  - intros _. cbn. eauto.
Qed.

Lemma analysis_of_quiet (path : string) (o : post_outcome) :
  removals path (snd (analysis_of o)) = 0%nat /\
  List.filter is_storage_write (snd (analysis_of o)) = [] /\
  List.filter is_send (snd (analysis_of o)) = [] /\
  List.filter is_post (snd (analysis_of o)) = [].
Proof.
  unfold analysis_of.
  destruct o as [r|e]; [|cbn; auto].
  destruct (resp_status r =? 200); [|cbn; auto].
  destruct (rbind (response_json r) first_choice_content); cbn; auto.
Qed.

(** ** The Notifier, case by case *)

Lemma bind_ok {A B} (m : M A) (k : A -> M B) (s s' : State) (a : A) :
  m s = (Ok a, s') -> bind m k s = k a s'.
Proof. intros H. unfold bind. now rewrite H. Qed.

Lemma bind_raise {A B} (m : M A) (k : A -> M B) (s s' : State) (e : exn) :
  m s = (Raise e, s') -> bind m k s = (Raise e, s').
Proof. intros H. unfold bind. now rewrite H. Qed.

Lemma try_ok {A} (m : M A) (h : exn -> M A) (s s' : State) (a : A) :
  m s = (Ok a, s') -> try_except m h s = (Ok a, s').
Proof. intros H. unfold try_except. now rewrite H. Qed.

Lemma try_raise {A} (m : M A) (h : exn -> M A) (s s' : State) (e : exn) :
  m s = (Raise e, s') -> try_except m h s = h e s'.
Proof. intros H. unfold try_except. now rewrite H. Qed.

(** With the image readable, the Notifier sends the photo, then the text,
    and stops at the first send that raises. *)
Lemma notifier_run (w : World) (path : string) (text : pyobj) (s : State)
    (photo : list Byte.byte) :
  names_directory path = false ->
  fs s !! path = Some photo ->
  send_image_and_analysis_to_telegram w path text s =
    let chat := TELEGRAM_CHAT_ID (cfg w) in
    let ts := strftime (now w (trace s)) in
    let s1 := {| fs := concurrent w AwaitPhoto (fs s);
                 trace := trace s ++ [EvSendPhoto chat photo ts] |} in
    match send_photo w chat photo ts with
    | Some e =>
        (Raise e,
         if is_telegram_error e
         then add_events s1 [EvLog ERROR (LogTelegramError e)] else s1)
    | None =>
        let s2 := {| fs := concurrent w AwaitMessage (concurrent w AwaitPhoto (fs s));
                     trace := trace s ++ [EvSendPhoto chat photo ts;
                                          EvLog INFO (LogImageSent chat ts);
                                          EvSendMessage chat text] |} in
        match send_message w chat text with
        | Some e =>
            (Raise e,
             if is_telegram_error e
             then add_events s2 [EvLog ERROR (LogTelegramError e)] else s2)
        | None => (Ok tt, add_events s2 [EvLog INFO (LogAnalysisSent chat)])
        end
    end.
Proof.
  intros Hd Hp.
  unfold send_image_and_analysis_to_telegram, datetime_now, read_rb,
    bot_send_photo, bot_send_message, suspend.
  run_monad. rewrite Hd, Hp. run_monad.
  destruct (send_photo w _ photo _) as [e|]; run_monad.
  { destruct (is_telegram_error e); run_monad; reflexivity. }
  destruct (send_message w _ text) as [e|]; run_monad.
  { destruct (is_telegram_error e); run_monad; reflexivity. }
  reflexivity.
Qed.

(** With the image unreadable, nothing is sent and the error of [open]
    leaves the Notifier. *)
Lemma notifier_unreadable (w : World) (path : string) (text : pyobj) (s : State)
    (e : exn) :
  fst (read_rb path s) = Raise e ->
  send_image_and_analysis_to_telegram w path text s = (Raise e, s).
Proof.
  unfold send_image_and_analysis_to_telegram, datetime_now, read_rb.
  run_monad.
  destruct (names_directory path).
  - cbn. intros [= <-]. reflexivity.
  - destruct (fs s !! path); cbn; [discriminate|]. intros [= <-]. reflexivity.
Qed.

(** Neither the Analyzer nor the Notifier writes or unlinks a file, and in a
    sequential world the storage is the same after them. *)
Lemma analyze_image_frame (w : World) (path prompt p : string) (s : State) :
  exists evs,
    trace (snd (analyze_image w path prompt s)) = trace s ++ evs /\
    removals p evs = 0%nat /\
    List.filter is_storage_write evs = [] /\
    List.filter is_send evs = [] /\
    (sequential w -> fs (snd (analyze_image w path prompt s)) = fs s).
Proof.
  destruct (read_rb_cases path s) as [(data & Hd & Hp) | (e & He)].
  - rewrite (analyze_image_run w path prompt s data Hd Hp). cbn [snd fs trace].
    destruct (analysis_of_quiet p (post w (inference_request (cfg w) prompt data)))
      as (H1 & H2 & H3 & _).
    eexists. split; [reflexivity|].
    repeat split.
    + change (EvPost ?r :: ?l) with ([EvPost r] ++ l).
      rewrite removals_app, H1. reflexivity.
    + cbn [List.filter is_storage_write]. exact H2.
    + cbn [List.filter is_send]. exact H3.
    + intros Hseq. apply Hseq.
  - rewrite (analyze_image_unreadable w path prompt s e He).
    eexists. split; [reflexivity|]. cbn. auto.
Qed.

Lemma notifier_frame (w : World) (path p : string) (text : pyobj) (s : State) :
  exists evs,
    trace (snd (send_image_and_analysis_to_telegram w path text s)) = trace s ++ evs /\
    removals p evs = 0%nat /\
    List.filter is_storage_write evs = [] /\
    (sequential w ->
     fs (snd (send_image_and_analysis_to_telegram w path text s)) = fs s).
Proof.
  destruct (read_rb_cases path s) as [(data & Hd & Hp) | (e & He)].
  - rewrite (notifier_run w path text s data Hd Hp). cbv zeta.
    destruct (send_photo w _ data _) as [e|].
    { destruct (is_telegram_error e); cbn [snd fs trace add_events];
        rewrite <- ?app_assoc; eexists; (split; [reflexivity|]);
        cbn; repeat split; auto; intros Hseq; apply Hseq. }
    destruct (send_message w _ text) as [e|].
    { destruct (is_telegram_error e); cbn [snd fs trace add_events];
        rewrite <- ?app_assoc; eexists; (split; [reflexivity|]);
        cbn; repeat split; auto; intros Hseq; now rewrite !Hseq. }
    cbn [snd fs trace add_events]. rewrite <- ?app_assoc.
    eexists. split; [reflexivity|]. cbn. repeat split; auto.
    intros Hseq. now rewrite !Hseq.
  - rewrite (notifier_unreadable w path text s e He). exists [].
    cbn. rewrite app_nil_r. auto.
Qed.

(** ** The handler *)

Lemma upload_image_rejected (w : World) (image : UploadFile) (s : State) :
  content_type image <> Some "image/jpeg" ->
  upload_image w image s =
    (Raise (HTTPException 400 "Invalid file format, only JPEG images are accepted"),
     add_events s [EvLog ERROR LogInvalidFormat]).
Proof.
  intros Hct. apply not_allowed_true in Hct.
  unfold upload_image. rewrite Hct. reflexivity.
Qed.

(** Once the upload is written, the handler goes on from [saved]. *)
Lemma upload_image_saved (w : World) (image : UploadFile) (s : State) :
  content_type image = Some "image/jpeg" ->
  names_directory (storage_path image) = false ->
  upload_image w image s = after_save w (storage_path image) (saved image s).
Proof.
  intros Hct Hd. apply not_allowed_false in Hct.
  unfold upload_image. rewrite Hct.
  fold (storage_path image). cbv zeta.
  set (p := storage_path image) in *.
  fold (after_save w p).
  unfold bind at 1, open_wb. rewrite Hd.
  unfold bind at 1, file_write. cbn [fs trace].
  unfold bind at 1, logging_info, emit. cbn [fs trace].
  unfold saved. fold p. rewrite <- !app_assoc. reflexivity.
Qed.

(** A name that denotes a directory cannot be opened for writing: nothing
    is stored and the error leaves the handler. *)
Lemma upload_image_unsaved (w : World) (image : UploadFile) (s : State) :
  content_type image = Some "image/jpeg" ->
  names_directory (storage_path image) = true ->
  upload_image w image s = (Raise (IsADirectoryError (storage_path image)), s).
Proof.
  intros Hct Hd. apply not_allowed_false in Hct.
  unfold upload_image. rewrite Hct.
  fold (storage_path image). cbv zeta.
  unfold bind at 1, open_wb. rewrite Hd. reflexivity.
Qed.

(** The one step that every path of the handler takes after the save. *)
Lemma cleanup_then {A} (p : string) (k : M A) (s : State) :
  names_directory p = false ->
  bind (os_remove p) (fun _ => k) s =
    match fs s !! p with
    | Some _ => k {| fs := delete p (fs s); trace := trace s ++ [EvRemove p] |}
    | None => (Raise (FileNotFoundError p), s)
    end.
Proof.
  intros Hd. unfold bind, os_remove. rewrite Hd.
  destruct (fs s !! p); reflexivity.
Qed.

Lemma removals_one (p : string) : removals p [EvRemove p] = 1%nat.
Proof. unfold removals. cbn. now rewrite String.eqb_refl. Qed.

Lemma responded_invalid_content : responded invalid_content.
Proof. left. reflexivity. Qed.
Lemma responded_analysis_failed : responded analysis_failed.
Proof. right. left. reflexivity. Qed.
Lemma responded_delivery_failed : responded delivery_failed.
Proof. right. right. left. reflexivity. Qed.
Lemma responded_success : responded success.
Proof. right. right. right. reflexivity. Qed.

Create HintDb handler.
#[local] Hint Resolve responded_invalid_content responded_analysis_failed
  responded_delivery_failed responded_success removals_one : handler.

(** Every path after the save runs the cleanup once, with no guard: either
    the file is unlinked and one of the four responses is given, or the file
    is not there and [FileNotFoundError] leaves the handler. *)
Lemma after_save_outcome (w : World) (p : string) (s1 : State) :
  names_directory p = false ->
  exists evs,
    trace (snd (after_save w p s1)) = trace s1 ++ evs /\
    List.filter is_storage_write evs = [] /\
    ((removals p evs = 1%nat /\ responded (fst (after_save w p s1)) /\
      fs (snd (after_save w p s1)) !! p = None) \/
     (removals p evs = 0%nat /\
      fst (after_save w p s1) = Raise (FileNotFoundError p))) /\
    (sequential w -> is_Some (fs s1 !! p) ->
     removals p evs = 1%nat /\ responded (fst (after_save w p s1)) /\
     fs (snd (after_save w p s1)) = delete p (fs s1)).
Proof.
  intros Hd. unfold after_save. cbv zeta.
  destruct (not_allowed (guess_type w p)).
  { rewrite (cleanup_then p _ s1 Hd).
    destruct (fs s1 !! p) as [d|] eqn:Hp.
    - run_monad. exists [EvRemove p; EvLog ERROR LogInvalidContent].
      split; [reflexivity|]. split; [reflexivity|]. split.
      + left. rewrite lookup_delete_eq.
        change [EvRemove p; EvLog ERROR LogInvalidContent]
          with ([EvRemove p] ++ [EvLog ERROR LogInvalidContent]).
        rewrite removals_app, removals_one. auto with handler.
      + intros _ _.
        change [EvRemove p; EvLog ERROR LogInvalidContent]
          with ([EvRemove p] ++ [EvLog ERROR LogInvalidContent]).
        rewrite removals_app, removals_one. auto with handler.
    - exists []. cbn [fst snd]. rewrite app_nil_r.
      split; [reflexivity|]. split; [reflexivity|]. split.
      + right. auto.
      + intros _ [d Hd']. discriminate. }
  destruct (analyze_image_total w p _prompt_ s1) as (a & s2 & HA).
  destruct (analyze_image_frame w p _prompt_ p s1) as (evsA & HtA & HrA & HwA & _ & HfA).
  rewrite HA in HtA, HfA. cbn [snd] in HtA, HfA.
  rewrite (bind_ok _ _ _ _ _ HA).
  destruct (truthy a); cbn [negb].
  2:{ rewrite (cleanup_then p _ s2 Hd).
      destruct (fs s2 !! p) as [d|] eqn:Hp.
      - run_monad. rewrite HtA, <- app_assoc.
        eexists. split; [reflexivity|].
        rewrite List.filter_app, HwA, !removals_app, HrA.
        split; [reflexivity|]. split.
        + left. rewrite lookup_delete_eq. cbn [Nat.add].
          change [EvRemove p; EvLog ERROR LogAnalysisFailed]
            with ([EvRemove p] ++ [EvLog ERROR LogAnalysisFailed]).
          rewrite removals_app, removals_one. auto with handler.
        + intros Hseq _. rewrite (HfA Hseq). cbn [Nat.add].
          change [EvRemove p; EvLog ERROR LogAnalysisFailed]
            with ([EvRemove p] ++ [EvLog ERROR LogAnalysisFailed]).
          rewrite removals_app, removals_one. auto with handler.
      - cbn [fst snd]. exists evsA.
        split; [exact HtA|]. split; [exact HwA|]. split.
        + right. auto.
        + intros Hseq [d Hd']. rewrite (HfA Hseq) in Hp. congruence. }
  destruct (send_image_and_analysis_to_telegram w p a s2) as [r3 s3] eqn:HN.
  destruct (notifier_frame w p p a s2) as (evsN & HtN & HrN & HwN & HfN).
  rewrite HN in HtN, HfN. cbn [snd] in HtN, HfN.
  destruct r3 as [[]|e].
  - rewrite (bind_ok _ _ _ _ _ (try_ok _ _ _ _ _ HN)).
    rewrite (cleanup_then p _ s3 Hd).
    destruct (fs s3 !! p) as [d|] eqn:Hp.
    + run_monad. rewrite HtN, HtA, <- !app_assoc.
      eexists. split; [reflexivity|].
      rewrite !List.filter_app, HwA, HwN, !removals_app, HrA, HrN.
      split; [reflexivity|]. cbn [Nat.add].
      change [EvRemove p; EvLog INFO (LogFileRemoved p)]
        with ([EvRemove p] ++ [EvLog INFO (LogFileRemoved p)]).
      rewrite removals_app, removals_one. split.
      * left. rewrite lookup_delete_eq. auto with handler.
      * intros Hseq _. rewrite (HfN Hseq), (HfA Hseq). auto with handler.
    + cbn [fst snd]. rewrite HtN, HtA, <- !app_assoc.
      eexists. split; [reflexivity|].
      rewrite !List.filter_app, HwA, HwN, !removals_app, HrA, HrN.
      split; [reflexivity|]. split.
      * right. auto.
      * intros Hseq [d Hd']. rewrite (HfN Hseq), (HfA Hseq) in Hp. congruence.
  - destruct (fs s3 !! p) as [d|] eqn:Hp.
    + match goal with
      | |- context [try_except ?m ?h] =>
          assert (HT : try_except m h s2 =
                       (Raise (HTTPException 500 "Failed to send image to Telegram"),
                        {| fs := delete p (fs s3);
                           trace := trace s3 ++
                                    [EvLog ERROR (LogTelegramFailed e); EvRemove p] |}))
      end.
      { rewrite (try_raise _ _ _ _ _ HN).
        unfold bind at 1, logging_error, emit.
        rewrite (cleanup_then p _ _ Hd). cbn [fs trace]. rewrite Hp.
        run_monad. reflexivity. }
      rewrite (bind_raise _ _ _ _ _ HT). cbn [fst snd fs trace].
      rewrite HtN, HtA, <- !app_assoc.
      eexists. split; [reflexivity|].
      rewrite !List.filter_app, HwA, HwN, !removals_app, HrA, HrN.
      split; [reflexivity|]. cbn [Nat.add].
      change [EvLog ERROR (LogTelegramFailed e); EvRemove p]
        with ([EvLog ERROR (LogTelegramFailed e)] ++ [EvRemove p]).
      rewrite removals_app, removals_one. split.
      * left. rewrite lookup_delete_eq. auto with handler.
      * intros Hseq _. rewrite (HfN Hseq), (HfA Hseq). auto with handler.
    + match goal with
      | |- context [try_except ?m ?h] =>
          assert (HT : try_except m h s2 =
                       (Raise (FileNotFoundError p),
                        add_events s3 [EvLog ERROR (LogTelegramFailed e)]))
      end.
      { rewrite (try_raise _ _ _ _ _ HN).
        unfold bind at 1, logging_error, emit.
        rewrite (cleanup_then p _ _ Hd). cbn [fs trace]. rewrite Hp.
        reflexivity. }
      rewrite (bind_raise _ _ _ _ _ HT). cbn [fst snd fs trace add_events].
      rewrite HtN, HtA, <- !app_assoc.
      eexists. split; [reflexivity|].
      rewrite !List.filter_app, HwA, HwN, !removals_app, HrA, HrN.
      split; [reflexivity|]. split.
      * right. auto.
      * intros Hseq [d Hd']. rewrite (HfN Hseq), (HfA Hseq) in Hp. congruence.
Qed.

Lemma sequential_nobody (inference : post_outcome) (photo message : option exn) :
  sequential (world_of inference photo message nobody).
Proof. intros pt m. reflexivity. Qed.

Lemma rfind_app_none (c : ascii) (s t : string) :
  rfind c t = -1 -> 0 <= rfind c s -> rfind c (s +:+ t) = rfind c s.
Proof.
  intros Ht. induction s as [|a rest IH]; [cbn; lia|].
  intros _. change (String a rest +:+ t) with (String a (rest +:+ t)).
  cbn [rfind]. pose proof (rfind_ge c rest) as Hge.
  destruct (0 <=? rfind c rest) eqn:E.
  - apply Z.leb_le in E. rewrite (IH E), (proj2 (Z.leb_le _ _) E). reflexivity.
  - apply Z.leb_gt in E. assert (Hr : rfind c rest = -1) by lia.
    assert (Hrt : rfind c (rest +:+ t) = -1).
    { clear IH E Hge. induction rest as [|b rest' IH']; [exact Ht|].
      change (String b rest' +:+ t) with (String b (rest' +:+ t)).
      apply rfind_none_cons in Hr. destruct Hr as [Hb Hr'].
      apply rfind_none_cons. split; [exact Hb | apply IH'; exact Hr']. }
    rewrite Hrt. reflexivity.
Qed.

(** The last component of the storage path is the storage name. *)
Lemma basename_storage_path (image : UploadFile) :
  basename (storage_path image) = basename (filename image).
Proof.
  rewrite storage_path_eq. unfold basename at 1.
  rewrite (rfind_app_none sep "./uploads/" _ (basename_no_sep (filename image)))
    by (vm_compute; discriminate).
  reflexivity.
Qed.

Lemma names_directory_storage_path (image : UploadFile) :
  names_directory (storage_path image) = directory_name (basename (filename image)).
Proof. unfold names_directory. now rewrite basename_storage_path. Qed.

(** The part of a name before its last component is empty or ends with the
    separator. *)
Lemma dirname_ends_with_sep (c : ascii) (s : string) :
  0 <= rfind c s -> endswith c (slice_to (rfind c s + 1) s) = true.
Proof.
  unfold slice_to. induction s as [|a rest IH]; [cbn; intros H; lia|].
  intros H. cbn [rfind] in H |- *. pose proof (rfind_ge c rest) as Hge.
  destruct (0 <=? rfind c rest) eqn:E.
  - apply Z.leb_le in E. specialize (IH E).
    replace (Z.to_nat (rfind c rest + 1 + 1)) with (S (Z.to_nat (rfind c rest + 1))) by lia.
    cbn [str_take].
    destruct (str_take (Z.to_nat (rfind c rest + 1)) rest) as [|b t] eqn:Et;
      [cbn in IH; discriminate | exact IH].
  - destruct (Ascii.eqb a c) eqn:Ea; [|lia]. cbn. exact Ea.
Qed.

Lemma saved_lookup (image : UploadFile) (s : State) :
  fs (saved image s) !! storage_path image = Some (content image).
Proof. unfold saved. cbn [fs]. apply lookup_insert_eq. Qed.

Lemma saved_delete (image : UploadFile) (s : State) :
  delete (storage_path image) (fs (saved image s)) = delete (storage_path image) (fs s).
Proof. unfold saved. cbn [fs]. now rewrite !delete_insert_eq. Qed.

(** The analysis-failure path, step by step. *)
Lemma after_save_analysis_falsy (w : World) (p : string) (s1 : State)
    (data : list Byte.byte) :
  sequential w ->
  names_directory p = false ->
  fs s1 !! p = Some data ->
  guess_type w p = Some "image/jpeg" ->
  truthy (fst (analysis_of (post w (inference_request (cfg w) _prompt_ data)))) = false ->
  after_save w p s1 =
    (analysis_failed,
     {| fs := delete p (fs s1);
        trace := trace s1 ++
                 EvPost (inference_request (cfg w) _prompt_ data)
                 :: snd (analysis_of (post w (inference_request (cfg w) _prompt_ data)))
                 ++ [EvRemove p; EvLog ERROR LogAnalysisFailed] |}).
Proof.
  intros Hseq Hd Hp Hg Hf. apply not_allowed_false in Hg.
  unfold after_save. cbv zeta. rewrite Hg.
  rewrite (bind_ok _ _ _ _ _ (analyze_image_run w p _prompt_ s1 data Hd Hp)).
  rewrite Hf. cbn [negb].
  rewrite (cleanup_then p _ _ Hd). cbn [fs trace].
  rewrite Hseq, Hp. run_monad. reflexivity.
Qed.

(** The delivery-failure path, step by step. *)
Lemma after_save_delivery_raises (w : World) (p : string) (s1 s2 s3 : State)
    (a : pyobj) (e : exn) (data : list Byte.byte) :
  names_directory p = false ->
  guess_type w p = Some "image/jpeg" ->
  analyze_image w p _prompt_ s1 = (Ok a, s2) ->
  truthy a = true ->
  send_image_and_analysis_to_telegram w p a s2 = (Raise e, s3) ->
  fs s3 !! p = Some data ->
  after_save w p s1 =
    (delivery_failed,
     {| fs := delete p (fs s3);
        trace := trace s3 ++ [EvLog ERROR (LogTelegramFailed e); EvRemove p] |}).
Proof.
  intros Hd Hg HA Ht HN Hp. apply not_allowed_false in Hg.
  unfold after_save. cbv zeta. rewrite Hg.
  rewrite (bind_ok _ _ _ _ _ HA). rewrite Ht. cbn [negb].
  apply bind_raise.
  rewrite (try_raise _ _ _ _ _ HN).
  unfold bind at 1, logging_error, emit.
  rewrite (cleanup_then p _ _ Hd). cbn [fs trace]. rewrite Hp.
  run_monad. reflexivity.
Qed.

(** The unfolding of [first_choice_content] on a body of the expected
    shape. *)
Lemma first_choice_content_shape (top choice message : list (string * pyobj))
    (others : list pyobj) (answer : pyobj) :
  assoc "choices" top = Some (PyList (PyDict choice :: others)) ->
  assoc "message" choice = Some (PyDict message) ->
  assoc "content" message = Some answer ->
  first_choice_content (PyDict top) = Ok answer.
Proof.
  intros H1 H2 H3. unfold first_choice_content, getitem.
  rewrite H1. cbn [rbind getitem0]. rewrite H2. cbn [rbind]. rewrite H3. reflexivity.
Qed.

(** With the image readable and both sends completing, the Notifier
    returns. *)
Lemma notifier_delivers (w : World) (path : string) (text : pyobj) (s : State)
    (photo : list Byte.byte) :
  names_directory path = false ->
  fs s !! path = Some photo ->
  send_photo w (TELEGRAM_CHAT_ID (cfg w)) photo (strftime (now w (trace s))) = None ->
  send_message w (TELEGRAM_CHAT_ID (cfg w)) text = None ->
  fst (send_image_and_analysis_to_telegram w path text s) = Ok tt.
Proof.
  intros Hd Hp H1 H2. rewrite (notifier_run w path text s photo Hd Hp).
  cbv zeta. rewrite H1, H2. reflexivity.
Qed.

(** What the content check does reject: a stored name that the mimetypes
    table does not map to [image/jpeg].  The file is unlinked at once and
    the response is 400, whatever the bytes are. *)
Lemma content_check_rejects_by_name (w : World) (image : UploadFile) (s : State) :
  content_type image = Some "image/jpeg" ->
  names_directory (storage_path image) = false ->
  guess_type w (storage_path image) <> Some "image/jpeg" ->
  upload_image w image s =
    (Raise (HTTPException 400 "Invalid image content"),
     {| fs := delete (storage_path image) (fs s);
        trace := trace (saved image s) ++
                 [EvRemove (storage_path image); EvLog ERROR LogInvalidContent] |}).
Proof.
  intros Hct Hd Hg. apply not_allowed_true in Hg.
  rewrite (upload_image_saved w image s Hct Hd).
  unfold after_save. cbv zeta. rewrite Hg.
  rewrite (cleanup_then _ _ _ Hd), saved_lookup.
  run_monad. rewrite saved_delete, <- ?app_assoc. reflexivity.
Qed.

(** What the content check lets through: any bytes under a name that the
    table maps to [image/jpeg] reach the Analyzer. *)
Lemma content_check_passes_by_name (w : World) (image : UploadFile) (s : State) :
  content_type image = Some "image/jpeg" ->
  names_directory (storage_path image) = false ->
  guess_type w (storage_path image) = Some "image/jpeg" ->
  exists logs,
    trace (snd (analyze_image w (storage_path image) _prompt_ (saved image s))) =
      trace (saved image s) ++
      EvPost (inference_request (cfg w) _prompt_ (content image)) :: logs /\
    fst (upload_image w image s) <> Raise (HTTPException 400 "Invalid image content").
Proof.
  intros Hct Hd Hg.
  rewrite (analyze_image_run w _ _prompt_ _ (content image) Hd (saved_lookup image s)).
  cbn [snd trace]. eexists. split; [reflexivity|].
  rewrite (upload_image_saved w image s Hct Hd).
  apply not_allowed_false in Hg.
  unfold after_save. cbv zeta. rewrite Hg.
  rewrite (bind_ok _ _ _ _ _
             (analyze_image_run w _ _prompt_ _ (content image) Hd (saved_lookup image s))).
  destruct (truthy _); cbn [negb].
  - unfold bind at 1.
    destruct (try_except _ _ _) as [[[]|e] s3] eqn:HT.
    + rewrite (cleanup_then _ _ _ Hd).
      destruct (fs s3 !! _); run_monad; discriminate.
    + cbn [fst]. intros [= ->].
      unfold try_except in HT.
      destruct (send_image_and_analysis_to_telegram _ _ _ _) as [[[]|e'] s4];
        [discriminate|].
      unfold bind at 1, logging_error, emit in HT.
      rewrite (cleanup_then _ _ _ Hd) in HT.
      destruct (fs _ !! _); cbn in HT; discriminate.
  - rewrite (cleanup_then _ _ _ Hd).
    destruct (fs _ !! _); run_monad; discriminate.
Qed.

(** ** The claims *)

(** C4. An upload whose declared content type is not exactly [image/jpeg]
    is answered 400 (invalid format); the storage is left as it was and the
    only effect is the log line, so no file is created and the rejection
    comes before any write. *)
Theorem C4_invalid_format_rejected_before_any_write
    (w : World) (image : UploadFile) (s : State) :
  content_type image <> Some "image/jpeg" ->
  fst (upload_image w image s) =
    Raise (HTTPException 400 "Invalid file format, only JPEG images are accepted") /\
  fs (snd (upload_image w image s)) = fs s /\
  trace (snd (upload_image w image s)) = trace s ++ [EvLog ERROR LogInvalidFormat].
Proof.
  intros Hct. rewrite (upload_image_rejected w image s Hct). auto.
Qed.

Lemma C4_witness_doc_pdf :
  fst (upload_image happy_world doc_pdf empty_state) =
    Raise (HTTPException 400 "Invalid file format, only JPEG images are accepted") /\
  fs (snd (upload_image happy_world doc_pdf empty_state)) = fs empty_state /\
  trace (snd (upload_image happy_world doc_pdf empty_state)) =
    trace empty_state ++ [EvLog ERROR LogInvalidFormat].
Proof.
  apply (C4_invalid_format_rejected_before_any_write happy_world doc_pdf empty_state).
  discriminate.
Defined.

(** C1.  When the upload passed the declared-type check and was written to
    the storage, the handler writes nothing more to the storage, and on each
    of the four outcomes (invalid content, analysis failed, delivery failed,
    success) it has unlinked the file exactly once before it responds, and
    the storage no longer holds the file.  When no other request interferes,
    these four outcomes are the only ones, and the storage is the initial
    one without the file. *)
Theorem C1_transient_file_deleted_exactly_once
    (w : World) (image : UploadFile) (s : State) :
  content_type image = Some "image/jpeg" ->
  names_directory (storage_path image) = false ->
  exists evs,
    trace (snd (upload_image w image s)) =
      trace s ++ [EvCreate (storage_path image);
                  EvWrite (storage_path image) (content image);
                  EvLog INFO (LogImageSaved (storage_path image))] ++ evs /\
    List.filter is_storage_write evs = [] /\
    (responded (fst (upload_image w image s)) ->
     removals (storage_path image) evs = 1%nat /\
     fs (snd (upload_image w image s)) !! storage_path image = None) /\
    (sequential w ->
     responded (fst (upload_image w image s)) /\
     fs (snd (upload_image w image s)) = delete (storage_path image) (fs s)).
Proof.
  intros Hct Hd.
  rewrite (upload_image_saved w image s Hct Hd).
  destruct (after_save_outcome w (storage_path image) (saved image s) Hd)
    as (evs & Ht & Hw & Hcases & Hs).
  exists evs. rewrite Ht. unfold saved at 1. cbn [trace]. rewrite <- app_assoc.
  split; [reflexivity|]. split; [exact Hw|]. split.
  - intros Hresp. destruct Hcases as [(Hr & _ & Hgone) | (_ & Hraise)]; [auto|].
    rewrite Hraise in Hresp.
    destruct Hresp as [H | [H | [H | H]]]; discriminate.
  - intros Hseq. destruct (Hs Hseq) as (_ & Hresp & Hfs).
    { rewrite saved_lookup. eauto. }
    rewrite Hfs, saved_delete. auto.
Qed.

Lemma C1_witness_photo_jpg :
  exists evs,
    trace (snd (upload_image happy_world photo_jpg empty_state)) =
      trace empty_state ++ [EvCreate (storage_path photo_jpg);
                            EvWrite (storage_path photo_jpg) (content photo_jpg);
                            EvLog INFO (LogImageSaved (storage_path photo_jpg))] ++ evs /\
    List.filter is_storage_write evs = [] /\
    (responded (fst (upload_image happy_world photo_jpg empty_state)) ->
     removals (storage_path photo_jpg) evs = 1%nat /\
     fs (snd (upload_image happy_world photo_jpg empty_state))
       !! storage_path photo_jpg = None) /\
    (sequential happy_world ->
     responded (fst (upload_image happy_world photo_jpg empty_state)) /\
     fs (snd (upload_image happy_world photo_jpg empty_state)) =
       delete (storage_path photo_jpg) (fs empty_state)).
Proof.
  apply (C1_transient_file_deleted_exactly_once happy_world photo_jpg empty_state).
  - reflexivity.
  - reflexivity.
Defined.

(** C3, as amended.  The cleanup is not guarded.  A request whose upload was
    stored attempts the unlink once on every path: either the file is
    unlinked, once, and one of the four responses is given (always so when
    no other request interferes), or the file is already gone and
    [FileNotFoundError] leaves the handler with nothing unlinked. *)
Theorem C3_cleanup_runs_once_without_guard
    (w : World) (image : UploadFile) (s : State) :
  content_type image = Some "image/jpeg" ->
  names_directory (storage_path image) = false ->
  exists evs,
    trace (snd (upload_image w image s)) = trace (saved image s) ++ evs /\
    ((removals (storage_path image) evs = 1%nat /\
      responded (fst (upload_image w image s)) /\
      fs (snd (upload_image w image s)) !! storage_path image = None) \/
     (removals (storage_path image) evs = 0%nat /\
      fst (upload_image w image s) = Raise (FileNotFoundError (storage_path image)))) /\
    (sequential w ->
     removals (storage_path image) evs = 1%nat /\
     responded (fst (upload_image w image s))).
Proof.
  intros Hct Hd.
  rewrite (upload_image_saved w image s Hct Hd).
  destruct (after_save_outcome w (storage_path image) (saved image s) Hd)
    as (evs & Ht & _ & Hcases & Hs).
  exists evs. split; [exact Ht|]. split; [exact Hcases|].
  intros Hseq. destruct (Hs Hseq) as (Hr & Hresp & _).
  { rewrite saved_lookup. eauto. }
  auto.
Qed.

Lemma C3_witness_racing_request :
  exists evs,
    trace (snd (upload_image racing_world photo_jpg empty_state)) =
      trace (saved photo_jpg empty_state) ++ evs /\
    ((removals (storage_path photo_jpg) evs = 1%nat /\
      responded (fst (upload_image racing_world photo_jpg empty_state)) /\
      fs (snd (upload_image racing_world photo_jpg empty_state))
        !! storage_path photo_jpg = None) \/
     (removals (storage_path photo_jpg) evs = 0%nat /\
      fst (upload_image racing_world photo_jpg empty_state) =
        Raise (FileNotFoundError (storage_path photo_jpg)))) /\
    (sequential racing_world ->
     removals (storage_path photo_jpg) evs = 1%nat /\
     responded (fst (upload_image racing_world photo_jpg empty_state))).
Proof.
  apply (C3_cleanup_runs_once_without_guard racing_world photo_jpg empty_state).
  - reflexivity.
  - reflexivity.
Defined.

(** C3 as stated fails: when another request removed the file while this
    one waited for the inference endpoint, the file is gone when the cleanup
    starts, and the unlink raises [FileNotFoundError] out of the handler. *)
Lemma C3_counterexample_second_delete_raises :
  fs (snd (analyze_image racing_world "./uploads/photo.jpg" _prompt_
             (saved photo_jpg empty_state))) !! "./uploads/photo.jpg" = None /\
  fst (upload_image racing_world photo_jpg empty_state) =
    Raise (FileNotFoundError "./uploads/photo.jpg").
Proof. split; vm_compute; reflexivity. Qed.

(** C9, as amended.  The storage name is what follows the last [/] of the
    supplied name: it has no separator, the part before it is empty or ends
    with the separator, and the storage path is the name right under
    [./uploads/].  Whenever the open for writing at that path succeeds, the
    name is not empty, [.] or [..], and the handler goes on from a storage
    that holds the upload's bytes at that path, whatever was there before,
    with every other file untouched. *)
Theorem C9_upload_stored_when_open_succeeds
    (w : World) (image : UploadFile) (s : State) :
  content_type image = Some "image/jpeg" ->
  fst (open_wb (storage_path image) s) = Ok (storage_path image) ->
  rfind sep (basename (filename image)) = -1 /\
  filename image =
    slice_to (rfind sep (filename image) + 1) (filename image)
    +:+ basename (filename image) /\
  (rfind sep (filename image) = -1 \/
   endswith sep (slice_to (rfind sep (filename image) + 1) (filename image)) = true) /\
  storage_path image = "./uploads/" +:+ basename (filename image) /\
  directory_name (basename (filename image)) = false /\
  upload_image w image s = after_save w (storage_path image) (saved image s) /\
  fs (saved image s) !! storage_path image = Some (content image) /\
  (forall other, other <> storage_path image ->
     fs (saved image s) !! other = fs s !! other) /\
  trace (saved image s) =
    trace s ++ [EvCreate (storage_path image);
                EvWrite (storage_path image) (content image);
                EvLog INFO (LogImageSaved (storage_path image))].
Proof.
  intros Hct Hopen.
  assert (Hn : names_directory (storage_path image) = false).
  { revert Hopen. unfold open_wb.
    destruct (names_directory (storage_path image)); [discriminate | reflexivity]. }
  split; [apply basename_no_sep|].
  split; [apply basename_suffix|].
  split.
  { pose proof (rfind_ge sep (filename image)) as Hge.
    destruct (Z.eq_dec (rfind sep (filename image)) (-1)) as [E|E]; [left; exact E|].
    right. apply dirname_ends_with_sep. lia. }
  split; [apply storage_path_eq|].
  split; [rewrite <- names_directory_storage_path; exact Hn|].
  split; [apply upload_image_saved; assumption|].
  split; [apply saved_lookup|].
  split; [|reflexivity].
  intros other Hne. unfold saved. cbn [fs].
  rewrite !lookup_insert_ne by congruence. reflexivity.
Qed.

Lemma C9_witness_collision_overwritten :
  fs busy_state !! "./uploads/photo.jpg" = Some (bytes_of "an older upload") /\
  (rfind sep (basename (filename photo_jpg)) = -1 /\
   filename photo_jpg =
     slice_to (rfind sep (filename photo_jpg) + 1) (filename photo_jpg)
     +:+ basename (filename photo_jpg) /\
   (rfind sep (filename photo_jpg) = -1 \/
    endswith sep (slice_to (rfind sep (filename photo_jpg) + 1) (filename photo_jpg)) = true) /\
   storage_path photo_jpg = "./uploads/" +:+ basename (filename photo_jpg) /\
   directory_name (basename (filename photo_jpg)) = false /\
   upload_image happy_world photo_jpg busy_state =
     after_save happy_world (storage_path photo_jpg) (saved photo_jpg busy_state) /\
   fs (saved photo_jpg busy_state) !! storage_path photo_jpg = Some (content photo_jpg) /\
   (forall other, other <> storage_path photo_jpg ->
      fs (saved photo_jpg busy_state) !! other = fs busy_state !! other) /\
   trace (saved photo_jpg busy_state) =
     trace busy_state ++ [EvCreate (storage_path photo_jpg);
                          EvWrite (storage_path photo_jpg) (content photo_jpg);
                          EvLog INFO (LogImageSaved (storage_path photo_jpg))]).
Proof.
  split; [vm_compute; reflexivity|].
  apply (C9_upload_stored_when_open_succeeds happy_world photo_jpg busy_state).
  - reflexivity.
  - reflexivity.
Defined.

(** C9 as stated fails for a supplied name whose last component is [..]:
    the storage name is [..] itself, the storage path denotes the parent of
    the upload folder, the open for writing raises and nothing is stored. *)
Lemma C9_counterexample_dotdot_not_stored :
  basename (filename dotdot_jpg) = ".." /\
  storage_path dotdot_jpg = "./uploads/.." /\
  upload_image happy_world dotdot_jpg empty_state =
    (Raise (IsADirectoryError "./uploads/.."), empty_state).
Proof.
  split; [reflexivity|]. split; [reflexivity|].
  apply (upload_image_unsaved happy_world dotdot_jpg empty_state); reflexivity.
Qed.

(** C2 fails on the code.  The content check of the handler asks the
    mimetypes table about the path, never about the bytes: [fake.jpg] with
    text bytes, declared [image/jpeg], passes it, is sent to the inference
    endpoint and to the chat as a photo, and the response is the success
    response, not 400. *)
Lemma C2_fake_jpg_passes_content_check :
  guess_type happy_world (storage_path fake_jpg) = Some "image/jpeg" /\
  fst (upload_image happy_world fake_jpg empty_state) = success /\
  List.filter is_send (trace (snd (upload_image happy_world fake_jpg empty_state))) =
    [ EvSendPhoto "-100200300" (bytes_of "just some text") "2024-11-05 12:00:07";
      EvSendMessage "-100200300" no_birds ].
Proof. repeat split; vm_compute; reflexivity. Qed.

(** C5.  The Analyzer never raises, whatever it is invoked on.  When the
    inference call ends in a network failure, a status other than 200 or a
    body the answer cannot be extracted from, the Analyzer logs one error
    and returns [None]; the handler that called it then unlinks the file and
    answers 500 (analysis failed). *)
Theorem C5_inference_failure_is_none_then_500 (w : World) :
  (forall path prompt s,
     exists v s', analyze_image w path prompt s = (Ok v, s')) /\
  (forall path prompt s data,
     names_directory path = false ->
     fs s !! path = Some data ->
     inference_failed (post w (inference_request (cfg w) prompt data)) ->
     exists r,
       analyze_image w path prompt s =
         (Ok PyNone,
          {| fs := concurrent w AwaitInference (fs s);
             trace := trace s ++ [EvPost (inference_request (cfg w) prompt data);
                                  EvLog ERROR r] |})) /\
  (forall image s,
     sequential w ->
     content_type image = Some "image/jpeg" ->
     names_directory (storage_path image) = false ->
     guess_type w (storage_path image) = Some "image/jpeg" ->
     inference_failed (post w (inference_request (cfg w) _prompt_ (content image))) ->
     exists r,
       upload_image w image s =
         (Raise (HTTPException 500 "Failed to analyze the image"),
          {| fs := delete (storage_path image) (fs s);
             trace := trace (saved image s) ++
                      [EvPost (inference_request (cfg w) _prompt_ (content image));
                       EvLog ERROR r;
                       EvRemove (storage_path image);
                       EvLog ERROR LogAnalysisFailed] |})).
Proof.
  split; [intros; apply analyze_image_total|]. split.
  - intros path prompt s data Hd Hp Hfail.
    destruct (analysis_of_failed _ Hfail) as (Hv & r & Hl).
    exists r. rewrite (analyze_image_run w path prompt s data Hd Hp), Hv, Hl.
    reflexivity.
  - intros image s Hseq Hct Hd Hg Hfail.
    destruct (analysis_of_failed _ Hfail) as (Hv & r & Hl).
    exists r. rewrite (upload_image_saved w image s Hct Hd).
    rewrite (after_save_analysis_falsy w _ _ (content image) Hseq Hd
               (saved_lookup image s) Hg) by (rewrite Hv; reflexivity).
    rewrite Hl, saved_delete. reflexivity.
Qed.

Lemma C5_witness_endpoint_unavailable :
  (exists v s',
     analyze_image unavailable_world "./uploads/photo.jpg" _prompt_
       (saved photo_jpg empty_state) = (Ok v, s')) /\
  (exists r,
     analyze_image unavailable_world "./uploads/photo.jpg" _prompt_
       (saved photo_jpg empty_state) =
       (Ok PyNone,
        {| fs := concurrent unavailable_world AwaitInference
                   (fs (saved photo_jpg empty_state));
           trace := trace (saved photo_jpg empty_state) ++
                    [EvPost (inference_request (cfg unavailable_world) _prompt_ jpeg_bytes);
                     EvLog ERROR r] |})) /\
  (exists r,
     upload_image unavailable_world photo_jpg empty_state =
       (Raise (HTTPException 500 "Failed to analyze the image"),
        {| fs := delete (storage_path photo_jpg) (fs empty_state);
           trace := trace (saved photo_jpg empty_state) ++
                    [EvPost (inference_request (cfg unavailable_world) _prompt_
                               (content photo_jpg));
                     EvLog ERROR r;
                     EvRemove (storage_path photo_jpg);
                     EvLog ERROR LogAnalysisFailed] |})).
Proof.
  destruct (C5_inference_failure_is_none_then_500 unavailable_world)
    as (Htotal & Hnone & Hhandler).
  split; [apply Htotal|]. split.
  - apply (Hnone "./uploads/photo.jpg" _prompt_ (saved photo_jpg empty_state) jpeg_bytes).
    + reflexivity.
    + vm_compute. reflexivity.
    + left. vm_compute. discriminate.
  - apply (Hhandler photo_jpg empty_state).
    + apply sequential_nobody.
    + reflexivity.
    + reflexivity.
    + vm_compute. reflexivity.
    + left. vm_compute. discriminate.
Defined.

(** C6.  The Notifier does not swallow an error of the messaging provider:
    when the photo send raises, or the photo send completes and the text
    send raises, the same error leaves the Notifier.  When the Notifier
    raises after an analysis that succeeded, the handler logs, unlinks the
    file (it was not unlinked before) and answers 500 (delivery failed). *)
Theorem C6_delivery_error_propagates_then_500 (w : World) :
  (forall path text s photo e,
     names_directory path = false ->
     fs s !! path = Some photo ->
     send_photo w (TELEGRAM_CHAT_ID (cfg w)) photo (strftime (now w (trace s))) = Some e \/
     (send_photo w (TELEGRAM_CHAT_ID (cfg w)) photo (strftime (now w (trace s))) = None /\
      send_message w (TELEGRAM_CHAT_ID (cfg w)) text = Some e) ->
     fst (send_image_and_analysis_to_telegram w path text s) = Raise e) /\
  (forall image s a s2 e s3,
     sequential w ->
     content_type image = Some "image/jpeg" ->
     names_directory (storage_path image) = false ->
     guess_type w (storage_path image) = Some "image/jpeg" ->
     analyze_image w (storage_path image) _prompt_ (saved image s) = (Ok a, s2) ->
     truthy a = true ->
     send_image_and_analysis_to_telegram w (storage_path image) a s2 = (Raise e, s3) ->
     upload_image w image s =
       (Raise (HTTPException 500 "Failed to send image to Telegram"),
        {| fs := delete (storage_path image) (fs s);
           trace := trace s3 ++ [EvLog ERROR (LogTelegramFailed e);
                                 EvRemove (storage_path image)] |}) /\
     exists evs,
       trace s3 = trace (saved image s) ++ evs /\
       removals (storage_path image) evs = 0%nat).
Proof.
  split.
  - intros path text s photo e Hd Hp Hsend.
    rewrite (notifier_run w path text s photo Hd Hp). cbv zeta.
    destruct Hsend as [H1 | [H1 H2]]; rewrite H1; [reflexivity|].
    rewrite H2. reflexivity.
  - intros image s a s2 e s3 Hseq Hct Hd Hg HA Ht HN.
    set (p := storage_path image) in *.
    destruct (analyze_image_frame w p _prompt_ p (saved image s))
      as (evsA & HtA & HrA & _ & _ & HfA).
    destruct (notifier_frame w p p a s2) as (evsN & HtN & HrN & _ & HfN).
    rewrite HA in HtA, HfA. rewrite HN in HtN, HfN. cbn [snd] in *.
    assert (Hfs : fs s3 = fs (saved image s)).
    { rewrite (HfN Hseq), (HfA Hseq). reflexivity. }
    split.
    + rewrite (upload_image_saved w image s Hct Hd). fold p.
      rewrite (after_save_delivery_raises w p _ s2 s3 a e (content image) Hd Hg HA Ht HN)
        by (rewrite Hfs; apply saved_lookup).
      rewrite Hfs. unfold p. rewrite saved_delete. reflexivity.
    + exists (evsA ++ evsN). rewrite HtN, HtA, <- app_assoc.
      split; [reflexivity|]. rewrite removals_app, HrA, HrN. reflexivity.
Qed.

Lemma C6_witness_photo_send_times_out :
  fst (send_image_and_analysis_to_telegram unreachable_chat_world
         "./uploads/photo.jpg" no_birds (saved photo_jpg empty_state)) =
    Raise (NetworkError "Timed out") /\
  upload_image unreachable_chat_world photo_jpg empty_state =
    (Raise (HTTPException 500 "Failed to send image to Telegram"),
     {| fs := delete (storage_path photo_jpg) (fs empty_state);
        trace :=
          trace (snd (send_image_and_analysis_to_telegram unreachable_chat_world
                        (storage_path photo_jpg) no_birds
                        (snd (analyze_image unreachable_chat_world
                                (storage_path photo_jpg) _prompt_
                                (saved photo_jpg empty_state)))))
          ++ [EvLog ERROR (LogTelegramFailed (NetworkError "Timed out"));
              EvRemove (storage_path photo_jpg)] |}).
Proof.
  destruct (C6_delivery_error_propagates_then_500 unreachable_chat_world)
    as (Hnotifier & Hhandler).
  split.
  - apply (Hnotifier "./uploads/photo.jpg" no_birds (saved photo_jpg empty_state)
             jpeg_bytes (NetworkError "Timed out")).
    + reflexivity.
    + vm_compute. reflexivity.
    + left. reflexivity.
  - apply (Hhandler photo_jpg empty_state no_birds
             (snd (analyze_image unreachable_chat_world (storage_path photo_jpg)
                     _prompt_ (saved photo_jpg empty_state)))
             (NetworkError "Timed out")).
    + apply sequential_nobody.
    + reflexivity.
    + reflexivity.
    + vm_compute. reflexivity.
    + vm_compute. reflexivity.
    + reflexivity.
    + vm_compute. reflexivity.
Defined.

(** C7.  Invoked on a stored image, the Analyzer sends exactly one request:
    to the configured URL, with a bearer-token [Authorization] header, a
    timeout of 30 seconds, and a JSON body that carries the model name, one
    user message made of the prompt and of the image as the data URI
    [data:image/jpeg;base64,] followed by the base64 of the file, the
    temperature 0.1 and 1000 as the maximum of output tokens.  When the
    response has status 200 and its JSON body has a first choice with a
    message content, that content is what the Analyzer returns. *)
Theorem C7_one_request_then_first_choice_content
    (w : World) (path prompt : string) (s : State) (data : list Byte.byte) :
  names_directory path = false ->
  fs s !! path = Some data ->
  let rq :=
    {| rq_url := GROQ_API_URL (cfg w);
       rq_json :=
         PyDict
           [ ("model", PyStr "llama-3.2-11b-vision-preview");
             ("messages",
              PyList
                [ PyDict
                    [ ("role", PyStr "user");
                      ("content",
                       PyList
                         [ PyDict [ ("type", PyStr "text"); ("text", PyStr prompt) ];
                           PyDict
                             [ ("type", PyStr "image_url");
                               ("image_url",
                                PyDict
                                  [ ("url",
                                     PyStr ("data:image/jpeg;base64,"
                                            +:+ b64encode data)) ]) ] ]) ] ]);
             ("temperature", PyFloat 0.1%float);
             ("max_tokens", PyInt 1000) ];
       rq_headers :=
         [ ("Authorization", "Bearer " +:+ GROQ_API_KEY (cfg w));
           ("Content-Type", "application/json") ];
       rq_timeout := 30 |} in
  exists logs,
    trace (snd (analyze_image w path prompt s)) = trace s ++ EvPost rq :: logs /\
    List.filter is_post logs = [] /\
    (forall r top choice message others answer,
       post w rq = Responded r ->
       resp_status r = 200 ->
       resp_json r = Some (PyDict top) ->
       assoc "choices" top = Some (PyList (PyDict choice :: others)) ->
       assoc "message" choice = Some (PyDict message) ->
       assoc "content" message = Some answer ->
       fst (analyze_image w path prompt s) = Ok answer).
Proof.
  intros Hd Hp rq.
  change rq with (inference_request (cfg w) prompt data). clear rq.
  rewrite (analyze_image_run w path prompt s data Hd Hp). cbn [fst snd trace].
  eexists. split; [reflexivity|].
  split; [apply (analysis_of_quiet path)|].
  intros r top choice message others answer Hpost Hst Hjson H1 H2 H3.
  rewrite Hpost. unfold analysis_of, response_json. rewrite Hst, Hjson.
  cbn [Z.eqb Pos.eqb rbind].
  rewrite (first_choice_content_shape top choice message others answer H1 H2 H3).
  reflexivity.
Qed.

Lemma C7_witness_no_birds :
  exists logs,
    trace (snd (analyze_image happy_world "./uploads/photo.jpg" _prompt_
                  (saved photo_jpg empty_state))) =
      trace (saved photo_jpg empty_state) ++
      EvPost
        {| rq_url := "https://api.groq.com/openai/v1/chat/completions";
           rq_json :=
             PyDict
               [ ("model", PyStr "llama-3.2-11b-vision-preview");
                 ("messages",
                  PyList
                    [ PyDict
                        [ ("role", PyStr "user");
                          ("content",
                           PyList
                             [ PyDict [ ("type", PyStr "text"); ("text", PyStr _prompt_) ];
                               PyDict
                                 [ ("type", PyStr "image_url");
                                   ("image_url",
                                    PyDict
                                      [ ("url",
                                         PyStr "data:image/jpeg;base64,/9j/4AAQ") ]) ] ]) ] ]);
                 ("temperature", PyFloat 0.1%float);
                 ("max_tokens", PyInt 1000) ];
           rq_headers :=
             [ ("Authorization", "Bearer gsk_key");
               ("Content-Type", "application/json") ];
           rq_timeout := 30 |} :: logs /\
    fst (analyze_image happy_world "./uploads/photo.jpg" _prompt_
           (saved photo_jpg empty_state)) = Ok no_birds.
Proof.
  destruct (C7_one_request_then_first_choice_content happy_world
              "./uploads/photo.jpg" _prompt_ (saved photo_jpg empty_state) jpeg_bytes)
    as (logs & Htrace & _ & Hanswer).
  - reflexivity.
  - vm_compute. reflexivity.
  - exists logs. split; [exact Htrace|].
    eapply Hanswer; reflexivity.
Defined.

Lemma two_digits_zero_padded (n : Z) :
  0 <= n <= 99 -> two_digits n = zero_padded n.
Proof.
  intros Hn.
  assert (Hall : List.forallb
                   (fun k => String.eqb (two_digits (Z.of_nat k)) (zero_padded (Z.of_nat k)))
                   (List.seq 0 100) = true) by (vm_compute; reflexivity).
  rewrite List.forallb_forall in Hall.
  specialize (Hall (Z.to_nat n)). rewrite Z2Nat.id in Hall by lia.
  apply String.eqb_eq, Hall, List.in_seq. lia.
Qed.

Lemma year_digits_decimal (n : Z) :
  1 <= n <= 9999 -> year_digits n = decimal n.
Proof.
  intros Hn.
  assert (Hall : List.forallb
                   (fun k => String.eqb (year_digits (Z.of_nat k)) (decimal (Z.of_nat k)))
                   (List.seq 1 (Z.to_nat 9999)) = true) by (vm_compute; reflexivity).
  rewrite List.forallb_forall in Hall.
  specialize (Hall (Z.to_nat n)). rewrite Z2Nat.id in Hall by lia.
  apply String.eqb_eq, Hall, List.in_seq. lia.
Qed.

(** The timestamp of a clock reading is its year in decimal, then month,
    day, hour, minute and second in two decimal digits each, with the
    separators of [%Y-%m-%d %H:%M:%S]. *)
Lemma strftime_decimal (d : datetime) :
  valid_datetime d ->
  strftime d =
    decimal (year d) +:+ "-" +:+ zero_padded (month d) +:+ "-" +:+ zero_padded (day d)
    +:+ " " +:+ zero_padded (hour d) +:+ ":" +:+ zero_padded (minute d) +:+ ":"
    +:+ zero_padded (second d).
Proof.
  intros (Hy & Hm & Hd & Hh & Hmin & Hs). unfold strftime.
  rewrite (year_digits_decimal (year d)) by lia.
  rewrite !two_digits_zero_padded by lia.
  reflexivity.
Qed.

(** C8.  A delivery that succeeds has sent exactly two messages to the
    configured chat, in this order: the stored image as a photo, and, the
    photo send having completed, the analysis text as a message of its own.
    The caption of the photo is the local clock reading taken when the
    Notifier was called, written as the year in decimal, [-], the month and
    the day in two digits, a space, and the hour, minute and second in two
    digits separated by [:]; the microseconds of the reading do not appear
    in it. *)
Theorem C8_two_messages_photo_then_text
    (w : World) (path : string) (text : pyobj) (s : State) :
  fst (send_image_and_analysis_to_telegram w path text s) = Ok tt ->
  valid_datetime (now w (trace s)) ->
  exists photo caption,
    fs s !! path = Some photo /\
    send_photo w (TELEGRAM_CHAT_ID (cfg w)) photo caption = None /\
    send_message w (TELEGRAM_CHAT_ID (cfg w)) text = None /\
    trace (snd (send_image_and_analysis_to_telegram w path text s)) =
      trace s ++
      [ EvSendPhoto (TELEGRAM_CHAT_ID (cfg w)) photo caption;
        EvLog INFO (LogImageSent (TELEGRAM_CHAT_ID (cfg w)) caption);
        EvSendMessage (TELEGRAM_CHAT_ID (cfg w)) text;
        EvLog INFO (LogAnalysisSent (TELEGRAM_CHAT_ID (cfg w))) ] /\
    caption =
      decimal (year (now w (trace s))) +:+ "-" +:+
      zero_padded (month (now w (trace s))) +:+ "-" +:+
      zero_padded (day (now w (trace s))) +:+ " " +:+
      zero_padded (hour (now w (trace s))) +:+ ":" +:+
      zero_padded (minute (now w (trace s))) +:+ ":" +:+
      zero_padded (second (now w (trace s))) /\
    (forall us,
       strftime {| year := year (now w (trace s)); month := month (now w (trace s));
                   day := day (now w (trace s)); hour := hour (now w (trace s));
                   minute := minute (now w (trace s)); second := second (now w (trace s));
                   microsecond := us |}
       = caption).
Proof.
  intros Hok Hvalid.
  destruct (read_rb_cases path s) as [(photo & Hd & Hp) | (e & He)].
  2:{ rewrite (notifier_unreadable w path text s e He) in Hok. discriminate. }
  rewrite (notifier_run w path text s photo Hd Hp) in Hok |- *. cbv zeta in Hok |- *.
  exists photo, (strftime (now w (trace s))). split; [exact Hp|].
  destruct (send_photo w _ photo _) as [e|]; [discriminate|].
  destruct (send_message w _ text) as [e|]; [discriminate|].
  cbn [snd trace add_events]. rewrite <- app_assoc.
  split; [reflexivity|]. split; [reflexivity|]. split; [reflexivity|].
  split; [apply strftime_decimal; exact Hvalid|].
  intros us. reflexivity.
Qed.

Lemma C8_witness_photo_then_text :
  exists photo caption,
    fs (saved photo_jpg empty_state) !! "./uploads/photo.jpg" = Some photo /\
    send_photo happy_world (TELEGRAM_CHAT_ID (cfg happy_world)) photo caption = None /\
    send_message happy_world (TELEGRAM_CHAT_ID (cfg happy_world)) no_birds = None /\
    trace (snd (send_image_and_analysis_to_telegram happy_world "./uploads/photo.jpg"
                  no_birds (saved photo_jpg empty_state))) =
      trace (saved photo_jpg empty_state) ++
      [ EvSendPhoto (TELEGRAM_CHAT_ID (cfg happy_world)) photo caption;
        EvLog INFO (LogImageSent (TELEGRAM_CHAT_ID (cfg happy_world)) caption);
        EvSendMessage (TELEGRAM_CHAT_ID (cfg happy_world)) no_birds;
        EvLog INFO (LogAnalysisSent (TELEGRAM_CHAT_ID (cfg happy_world))) ] /\
    caption =
      decimal (year (now happy_world (trace (saved photo_jpg empty_state)))) +:+ "-" +:+
      zero_padded (month (now happy_world (trace (saved photo_jpg empty_state)))) +:+ "-" +:+
      zero_padded (day (now happy_world (trace (saved photo_jpg empty_state)))) +:+ " " +:+
      zero_padded (hour (now happy_world (trace (saved photo_jpg empty_state)))) +:+ ":" +:+
      zero_padded (minute (now happy_world (trace (saved photo_jpg empty_state)))) +:+ ":" +:+
      zero_padded (second (now happy_world (trace (saved photo_jpg empty_state)))) /\
    (forall us,
       strftime {| year := year (now happy_world (trace (saved photo_jpg empty_state)));
                   month := month (now happy_world (trace (saved photo_jpg empty_state)));
                   day := day (now happy_world (trace (saved photo_jpg empty_state)));
                   hour := hour (now happy_world (trace (saved photo_jpg empty_state)));
                   minute := minute (now happy_world (trace (saved photo_jpg empty_state)));
                   second := second (now happy_world (trace (saved photo_jpg empty_state)));
                   microsecond := us |}
       = caption).
Proof.
  apply (C8_two_messages_photo_then_text happy_world "./uploads/photo.jpg" no_birds
           (saved photo_jpg empty_state)).
  - vm_compute. reflexivity.
  - unfold valid_datetime. cbn. lia.
Defined.

(** C10.  When the inference call answers 200 and the first choice's
    message content is the empty string, the handler takes the
    analysis-failure path: it unlinks the file and answers 500, and nothing
    is sent to the chat. *)
Theorem C10_empty_answer_is_analysis_failure
    (w : World) (image : UploadFile) (s : State) (r : http_response) (body : pyobj) :
  sequential w ->
  content_type image = Some "image/jpeg" ->
  names_directory (storage_path image) = false ->
  guess_type w (storage_path image) = Some "image/jpeg" ->
  post w (inference_request (cfg w) _prompt_ (content image)) = Responded r ->
  resp_status r = 200 ->
  resp_json r = Some body ->
  first_choice_content body = Ok (PyStr "") ->
  upload_image w image s =
    (Raise (HTTPException 500 "Failed to analyze the image"),
     {| fs := delete (storage_path image) (fs s);
        trace := trace (saved image s) ++
                 [EvPost (inference_request (cfg w) _prompt_ (content image));
                  EvLog INFO LogAnalysisResult;
                  EvLog INFO (LogAnswer (PyStr ""));
                  EvRemove (storage_path image);
                  EvLog ERROR LogAnalysisFailed] |}) /\
  List.filter is_send (trace (snd (upload_image w image s))) =
    List.filter is_send (trace s).
Proof.
  intros Hseq Hct Hd Hg Hpost Hst Hjson Hc.
  assert (HA : analysis_of (post w (inference_request (cfg w) _prompt_ (content image)))
               = (PyStr "", [EvLog INFO LogAnalysisResult; EvLog INFO (LogAnswer (PyStr ""))])).
  { rewrite Hpost. unfold analysis_of, response_json. rewrite Hst, Hjson.
    cbn [Z.eqb Pos.eqb rbind]. rewrite Hc. reflexivity. }
  assert (Hrun : upload_image w image s =
    (Raise (HTTPException 500 "Failed to analyze the image"),
     {| fs := delete (storage_path image) (fs s);
        trace := trace (saved image s) ++
                 [EvPost (inference_request (cfg w) _prompt_ (content image));
                  EvLog INFO LogAnalysisResult;
                  EvLog INFO (LogAnswer (PyStr ""));
                  EvRemove (storage_path image);
                  EvLog ERROR LogAnalysisFailed] |})).
  { rewrite (upload_image_saved w image s Hct Hd).
    rewrite (after_save_analysis_falsy w _ _ (content image) Hseq Hd
               (saved_lookup image s) Hg) by (rewrite HA; reflexivity).
    rewrite HA, saved_delete. reflexivity. }
  split; [exact Hrun|].
  rewrite Hrun. cbn [snd trace saved].
  rewrite !List.filter_app. cbn. rewrite !app_nil_r. reflexivity.
Qed.

Lemma C10_witness_empty_content :
  upload_image silent_world photo_jpg empty_state =
    (Raise (HTTPException 500 "Failed to analyze the image"),
     {| fs := delete (storage_path photo_jpg) (fs empty_state);
        trace := trace (saved photo_jpg empty_state) ++
                 [EvPost (inference_request (cfg silent_world) _prompt_ (content photo_jpg));
                  EvLog INFO LogAnalysisResult;
                  EvLog INFO (LogAnswer (PyStr ""));
                  EvRemove (storage_path photo_jpg);
                  EvLog ERROR LogAnalysisFailed] |}) /\
  List.filter is_send (trace (snd (upload_image silent_world photo_jpg empty_state))) =
    List.filter is_send (trace empty_state).
Proof.
  apply (C10_empty_answer_is_analysis_failure silent_world photo_jpg empty_state
           {| resp_status := 200; resp_text := "{...}";
              resp_json := Some (completion (PyStr "")) |}
           (completion (PyStr ""))).
  - apply sequential_nobody.
  - reflexivity.
  - reflexivity.
  - vm_compute. reflexivity.
  - reflexivity.
  - reflexivity.
  - reflexivity.
  - reflexivity.
Defined.

(** * Further properties *)

(** ** Every path of the handler, exactly *)

Lemma finish_here (p : string) (s : State) (r : result response) (post : list event) :
  finish p s [] r post =
    match fs s !! p with
    | Some _ => (r, {| fs := delete p (fs s); trace := trace s ++ EvRemove p :: post |})
    | None => (Raise (FileNotFoundError p), s)
    end.
Proof.
  unfold finish. destruct (fs s !! p); [reflexivity|].
  destruct s as [m t]. cbn [fs trace app]. now rewrite app_nil_r.
Qed.

(** After the save the handler takes one of four paths, each ending in the
    unguarded cleanup. *)
Lemma after_save_cases (w : World) (p : string) (s1 : State) :
  names_directory p = false ->
  (not_allowed (guess_type w p) = true /\
   after_save w p s1 = finish p s1 [] invalid_content [EvLog ERROR LogInvalidContent]) \/
  (not_allowed (guess_type w p) = false /\
   exists a s2,
     analyze_image w p _prompt_ s1 = (Ok a, s2) /\
     ((truthy a = false /\
       after_save w p s1 = finish p s2 [] analysis_failed [EvLog ERROR LogAnalysisFailed]) \/
      (truthy a = true /\
       exists s3,
         (send_image_and_analysis_to_telegram w p a s2 = (Ok tt, s3) /\
          after_save w p s1 = finish p s3 [] success [EvLog INFO (LogFileRemoved p)]) \/
         (exists e,
            send_image_and_analysis_to_telegram w p a s2 = (Raise e, s3) /\
            after_save w p s1 =
              finish p s3 [EvLog ERROR (LogTelegramFailed e)] delivery_failed [])))).
Proof.
  intros Hd. unfold after_save. cbv zeta.
  destruct (not_allowed (guess_type w p)).
  { left. split; [reflexivity|].
    rewrite (cleanup_then p _ s1 Hd), finish_here.
    destruct (fs s1 !! p); run_monad; reflexivity. }
  right. split; [reflexivity|].
  destruct (analyze_image_total w p _prompt_ s1) as (a & s2 & HA).
  exists a, s2. split; [exact HA|].
  rewrite (bind_ok _ _ _ _ _ HA).
  destruct (truthy a); cbn [negb].
  2:{ left. split; [reflexivity|].
      rewrite (cleanup_then p _ s2 Hd), finish_here.
      destruct (fs s2 !! p); run_monad; reflexivity. }
  right. split; [reflexivity|].
  destruct (send_image_and_analysis_to_telegram w p a s2) as [r3 s3] eqn:HN.
  exists s3. destruct r3 as [[]|e].
  - left. split; [reflexivity|].
    rewrite (bind_ok _ _ _ _ _ (try_ok _ _ _ _ _ HN)).
    rewrite (cleanup_then p _ s3 Hd), finish_here.
    destruct (fs s3 !! p); run_monad; reflexivity.
  - right. exists e. split; [reflexivity|].
    unfold finish.
    destruct (fs s3 !! p) as [d|] eqn:Hp.
    + apply bind_raise. rewrite (try_raise _ _ _ _ _ HN).
      unfold bind at 1, logging_error, emit.
      rewrite (cleanup_then p _ _ Hd). cbn [fs trace]. rewrite Hp.
      run_monad. reflexivity.
    + apply bind_raise. rewrite (try_raise _ _ _ _ _ HN).
      unfold bind at 1, logging_error, emit.
      rewrite (cleanup_then p _ _ Hd). cbn [fs trace]. rewrite Hp.
      reflexivity.
Qed.

(** What the Analyzer adds to the trace. *)
Lemma analysis_of_effects (p : string) (o : post_outcome) :
  removals p (snd (analysis_of o)) = 0%nat /\
  List.filter is_send (snd (analysis_of o)) = [] /\
  List.filter is_post (snd (analysis_of o)) = [] /\
  List.filter (off_path p) (snd (analysis_of o)) = [] /\
  (truthy (fst (analysis_of o)) = true ->
   List.filter is_error_log (snd (analysis_of o)) = []).
Proof.
  unfold analysis_of.
  destruct o as [r|e]; [|cbn; repeat split; discriminate].
  destruct (resp_status r =? 200); [|cbn; repeat split; discriminate].
  destruct (rbind (response_json r) first_choice_content); cbn; repeat split; discriminate.
Qed.

Lemma analyze_image_effects (w : World) (path prompt p : string) (s s2 : State)
    (a : pyobj) :
  analyze_image w path prompt s = (Ok a, s2) ->
  exists evs,
    trace s2 = trace s ++ evs /\
    removals p evs = 0%nat /\
    List.filter is_send evs = [] /\
    List.filter (off_path p) evs = [] /\
    (List.length (List.filter is_post evs) <= 1)%nat /\
    (truthy a = true ->
     List.filter is_error_log evs = [] /\
     List.length (List.filter is_post evs) = 1%nat).
Proof.
  intros HA.
  destruct (read_rb_cases path s) as [(data & Hd & Hp) | (e & He)].
  - rewrite (analyze_image_run w path prompt s data Hd Hp) in HA.
    injection HA as <- <-. cbn [trace].
    destruct (analysis_of_effects p (post w (inference_request (cfg w) prompt data)))
      as (H0 & H1 & H2 & H3 & H4).
    eexists. split; [reflexivity|].
    change (EvPost ?r :: ?l) with ([EvPost r] ++ l).
    rewrite removals_app, !List.filter_app, H0, H1, H2, H3. cbn.
    repeat split; auto.
  - rewrite (analyze_image_unreadable w path prompt s e He) in HA.
    injection HA as <- <-. cbn [trace add_events].
    eexists. split; [reflexivity|]. cbn. repeat split; auto; discriminate.
Qed.

(** What the Notifier adds to the trace. *)
Lemma notifier_effects (w : World) (path p : string) (text : pyobj) (s s3 : State)
    (r3 : result unit) :
  send_image_and_analysis_to_telegram w path text s = (r3, s3) ->
  exists evs,
    trace s3 = trace s ++ evs /\
    removals p evs = 0%nat /\
    List.filter is_post evs = [] /\
    List.filter (off_path p) evs = [] /\
    photo_then_text (List.filter is_send evs) /\
    (r3 = Ok tt ->
     exists photo caption,
       List.filter is_send evs =
         [EvSendPhoto (TELEGRAM_CHAT_ID (cfg w)) photo caption;
          EvSendMessage (TELEGRAM_CHAT_ID (cfg w)) text] /\
       send_photo w (TELEGRAM_CHAT_ID (cfg w)) photo caption = None /\
       send_message w (TELEGRAM_CHAT_ID (cfg w)) text = None /\
       List.filter is_error_log evs = []).
Proof.
  intros HN.
  destruct (read_rb_cases path s) as [(data & Hd & Hp) | (e & He)].
  - rewrite (notifier_run w path text s data Hd Hp) in HN. cbv zeta in HN.
    destruct (send_photo w _ data _) as [e|] eqn:Hphoto.
    { injection HN as <- <-.
      destruct (is_telegram_error e); cbn [trace add_events]; rewrite <- ?app_assoc;
        (eexists; split; [reflexivity|]); cbn;
        (repeat split; auto; [right; left; eauto | discriminate]). }
    destruct (send_message w _ text) as [e|] eqn:Hmessage.
    { injection HN as <- <-.
      destruct (is_telegram_error e); cbn [trace add_events]; rewrite <- ?app_assoc;
        (eexists; split; [reflexivity|]); cbn;
        (repeat split; auto; [right; right; eauto | discriminate]). }
    injection HN as <- <-. cbn [trace add_events]. rewrite <- ?app_assoc.
    eexists. split; [reflexivity|]. cbn.
    repeat split; auto; [right; right; eauto|].
    intros _. do 2 eexists. repeat split. exact Hphoto.
  - rewrite (notifier_unreadable w path text s e He) in HN.
    injection HN as <- <-. exists []. rewrite app_nil_r. cbn.
    repeat split; auto; [left; reflexivity | discriminate].
Qed.

Lemma off_path_remove (p : string) (l : list event) :
  List.filter (off_path p) (EvRemove p :: l) = List.filter (off_path p) l.
Proof. cbn [List.filter off_path]. now rewrite String.eqb_refl. Qed.

Lemma removals_remove (p : string) (l : list event) :
  removals p (EvRemove p :: l) = S (removals p l).
Proof. unfold removals. cbn [List.filter is_remove]. now rewrite String.eqb_refl. Qed.

Ltac unfold_responses :=
  unfold invalid_content, analysis_failed, delivery_failed, success in *.

(** What the handler adds to the trace after the save, on every path and
    in every world. *)
Lemma after_save_effects (w : World) (p : string) (s1 : State) :
  names_directory p = false ->
  exists evs,
    trace (snd (after_save w p s1)) = trace s1 ++ evs /\
    List.filter (off_path p) evs = [] /\
    (List.length (List.filter is_post evs) <= 1)%nat /\
    photo_then_text (List.filter is_send evs) /\
    (List.filter is_send evs <> [] -> List.length (List.filter is_post evs) = 1%nat) /\
    (fst (after_save w p s1) = success ->
     exists photo caption a,
       List.filter is_send evs =
         [EvSendPhoto (TELEGRAM_CHAT_ID (cfg w)) photo caption;
          EvSendMessage (TELEGRAM_CHAT_ID (cfg w)) a] /\
       truthy a = true /\
       send_photo w (TELEGRAM_CHAT_ID (cfg w)) photo caption = None /\
       send_message w (TELEGRAM_CHAT_ID (cfg w)) a = None /\
       List.filter is_error_log evs = [] /\
       List.length (List.filter is_post evs) = 1%nat /\
       removals p evs = 1%nat) /\
    (forall st d,
       fst (after_save w p s1) = Raise (HTTPException st d) ->
       List.filter is_error_log evs <> []).
Proof.
  intros Hd.
  destruct (after_save_cases w p s1 Hd)
    as [(_ & ->) | (_ & a & s2 & HA & Hrest)].
  { rewrite finish_here. unfold_responses.
    destruct (fs s1 !! p); cbn [fst snd trace].
    - eexists. split; [reflexivity|]. rewrite off_path_remove. cbn.
      repeat split; auto; try discriminate; [left; reflexivity | congruence].
    - exists []. rewrite app_nil_r. cbn.
      repeat split; auto; try discriminate; [left; reflexivity | congruence]. }
  destruct (analyze_image_effects w p _prompt_ p s1 s2 a HA)
    as (evsA & HtA & HrA & HsA & HoA & HpA & HtruthyA).
  destruct Hrest as [(Hfalsy & ->) | (Htruthy & s3 & Hrest)].
  { rewrite finish_here. unfold_responses.
    destruct (fs s2 !! p); cbn [fst snd trace]; rewrite HtA.
    - rewrite <- app_assoc. eexists. split; [reflexivity|].
      rewrite !List.filter_app, off_path_remove, HsA, HoA. cbn.
      rewrite !app_nil_r.
      repeat split; auto; try discriminate; try congruence; [left; reflexivity|].
      intros _ _ _ H. apply app_eq_nil in H. destruct H; discriminate.
    - exists evsA. split; [reflexivity|]. rewrite HsA, HoA.
      repeat split; auto; try discriminate; try congruence. left; reflexivity. }
  destruct (HtruthyA Htruthy) as (HeA & HpA1).
  destruct Hrest as [(HN & ->) | (e & HN & ->)].
  - destruct (notifier_effects w p p a s2 s3 _ HN)
      as (evsN & HtN & HrN & HpN & HoN & HshapeN & HokN).
    destruct (HokN eq_refl) as (photo & caption & HsN & Hphoto & Hmessage & HeN).
    rewrite finish_here. unfold_responses.
    destruct (fs s3 !! p); cbn [fst snd trace]; rewrite HtN, HtA.
    + rewrite <- !app_assoc. eexists. split; [reflexivity|].
      rewrite !List.filter_app, off_path_remove, HsA, HoA, HpN, HoN, HsN, HeA, HeN,
        !removals_app, removals_remove, HrA, HrN.
      cbn [List.filter is_send is_post is_error_log off_path app removals List.length
           is_remove Nat.add].
      rewrite !app_nil_r, HpA1.
      split; [reflexivity|]. split; [auto|].
      split; [right; right; eauto|]. split; [auto|]. split.
      * intros _. exists photo, caption, a. repeat split; auto.
      * intros st d H. discriminate.
    + exists (evsA ++ evsN). rewrite <- app_assoc. split; [reflexivity|].
      rewrite !List.filter_app, HsA, HoA, HpN, HoN, HsN, !app_nil_r, HpA1.
      cbn [app].
      split; [reflexivity|]. split; [auto|].
      split; [right; right; eauto|]. split; [auto|].
      split; intros; discriminate.
  - destruct (notifier_effects w p p a s2 s3 _ HN)
      as (evsN & HtN & HrN & HpN & HoN & HshapeN & _).
    unfold finish. unfold_responses.
    destruct (fs s3 !! p); cbn [fst snd trace]; rewrite HtN, HtA.
    + rewrite <- !app_assoc. eexists. split; [reflexivity|].
      rewrite !List.filter_app, HsA, HoA, HpN, HoN.
      cbn [List.filter is_send is_post is_error_log off_path app].
      rewrite String.eqb_refl. cbn [negb].
      rewrite !app_nil_r, HpA1.
      split; [reflexivity|]. split; [auto|].
      split; [exact HshapeN|]. split; [auto|].
      split; [intros; discriminate|].
      intros _ _ _ H. apply app_eq_nil in H. destruct H as [_ H].
      apply app_eq_nil in H. destruct H; discriminate.
    + rewrite <- !app_assoc. eexists. split; [reflexivity|].
      rewrite !List.filter_app, HsA, HoA, HpN, HoN.
      cbn [List.filter is_send is_post is_error_log off_path app].
      rewrite !app_nil_r, HpA1.
      split; [reflexivity|]. split; [auto|].
      split; [exact HshapeN|]. split; [auto|].
      split; intros; discriminate.
Qed.

(** The same for the whole handler: a rejected upload only logs, an upload
    that cannot be stored does nothing, and a stored one adds the three
    events of the save to what [after_save_effects] describes. *)
Lemma upload_image_effects (w : World) (image : UploadFile) (s : State) :
  exists evs,
    trace (snd (upload_image w image s)) = trace s ++ evs /\
    List.filter (off_path (storage_path image)) evs = [] /\
    (List.length (List.filter is_post evs) <= 1)%nat /\
    photo_then_text (List.filter is_send evs) /\
    (List.filter is_send evs <> [] -> List.length (List.filter is_post evs) = 1%nat) /\
    (fst (upload_image w image s) = success ->
     exists photo caption a,
       List.filter is_send evs =
         [EvSendPhoto (TELEGRAM_CHAT_ID (cfg w)) photo caption;
          EvSendMessage (TELEGRAM_CHAT_ID (cfg w)) a] /\
       truthy a = true /\
       send_photo w (TELEGRAM_CHAT_ID (cfg w)) photo caption = None /\
       send_message w (TELEGRAM_CHAT_ID (cfg w)) a = None /\
       List.filter is_error_log evs = [] /\
       List.length (List.filter is_post evs) = 1%nat /\
       removals (storage_path image) evs = 1%nat) /\
    (forall st d,
       fst (upload_image w image s) = Raise (HTTPException st d) ->
       List.filter is_error_log evs <> []).
Proof.
  destruct (not_allowed (content_type image)) eqn:Hct.
  { apply not_allowed_true in Hct.
    rewrite (upload_image_rejected w image s Hct). unfold_responses.
    cbn [fst snd trace add_events].
    eexists. split; [reflexivity|]. cbn.
    repeat split; auto; try discriminate; [left; reflexivity | congruence]. }
  apply not_allowed_false in Hct.
  destruct (names_directory (storage_path image)) eqn:Hd.
  { rewrite (upload_image_unsaved w image s Hct Hd). unfold_responses.
    exists []. cbn. rewrite app_nil_r.
    repeat split; auto; try discriminate; [left; reflexivity | congruence]. }
  rewrite (upload_image_saved w image s Hct Hd).
  set (p := storage_path image) in *.
  destruct (after_save_effects w p (saved image s) Hd)
    as (evs & Ht & Ho & Hp & Hshape & Hsent & Hok & Herr).
  rewrite Ht. unfold saved at 1. fold p. cbn [trace]. rewrite <- app_assoc.
  eexists. split; [reflexivity|].
  rewrite !List.filter_app, removals_app.
  cbn [List.filter is_send is_post is_error_log off_path app List.length].
  rewrite String.eqb_refl. cbn [negb app].
  split; [exact Ho|]. split; [exact Hp|]. split; [exact Hshape|].
  split; [exact Hsent|]. split; [|exact Herr].
  intros Hs. destruct (Hok Hs) as (photo & caption & a & H).
  exists photo, caption, a.
  replace (removals p [EvCreate p; EvWrite p (content image);
                       EvLog INFO (LogImageSaved p)]) with 0%nat by reflexivity.
  exact H.
Qed.

(** ** The handler in every world *)

Lemma filter_call_of_posts (l : list event) :
  List.filter is_send l = [] -> List.filter is_call l = List.filter is_post l.
Proof.
  induction l as [|ev l IH]; [reflexivity|].
  unfold is_call in *. cbn [List.filter].
  destruct ev; cbn [is_send is_post orb]; intros H; try discriminate;
    rewrite ?IH by exact H; try reflexivity.
Qed.

Lemma filter_call_of_sends (l : list event) :
  List.filter is_post l = [] -> List.filter is_call l = List.filter is_send l.
Proof.
  induction l as [|ev l IH]; [reflexivity|].
  unfold is_call in *. cbn [List.filter].
  destruct ev; cbn [is_send is_post orb]; intros H; try discriminate;
    rewrite ?IH by exact H; try reflexivity.
Qed.

(** The calls of the Analyzer: none, with [None] returned, or the one
    request. *)
Lemma analyze_image_calls (w : World) (path prompt : string) (s s2 : State)
    (a : pyobj) :
  analyze_image w path prompt s = (Ok a, s2) ->
  exists evs,
    trace s2 = trace s ++ evs /\
    ((List.filter is_call evs = [] /\ truthy a = false) \/
     exists rq, List.filter is_call evs = [EvPost rq]).
Proof.
  intros HA.
  destruct (read_rb_cases path s) as [(data & Hd & Hp) | (e & He)].
  - rewrite (analyze_image_run w path prompt s data Hd Hp) in HA.
    injection HA as <- <-. cbn [trace].
    destruct (analysis_of_effects path (post w (inference_request (cfg w) prompt data)))
      as (_ & Hs & Hposts & _).
    eexists. split; [reflexivity|]. right.
    exists (inference_request (cfg w) prompt data).
    change (EvPost ?r :: ?l) with ([EvPost r] ++ l).
    rewrite List.filter_app, (filter_call_of_posts _ Hs), Hposts. reflexivity.
  - rewrite (analyze_image_unreadable w path prompt s e He) in HA.
    injection HA as <- <-. cbn [trace add_events].
    eexists. split; [reflexivity|]. left. split; reflexivity.
Qed.

(** The calls of the Notifier: none, the photo, or the photo and then the
    text. *)
Lemma notifier_calls (w : World) (path : string) (text : pyobj) (s s3 : State)
    (r3 : result unit) :
  send_image_and_analysis_to_telegram w path text s = (r3, s3) ->
  exists evs,
    trace s3 = trace s ++ evs /\
    List.filter is_call evs = List.filter is_send evs /\
    photo_then_text (List.filter is_send evs).
Proof.
  intros HN.
  destruct (notifier_effects w path path text s s3 r3 HN)
    as (evs & Ht & _ & Hposts & _ & Hshape & _).
  exists evs. split; [exact Ht|]. split; [|exact Hshape].
  apply filter_call_of_sends. exact Hposts.
Qed.

Lemma calls_after_post (rq : http_request) (sends : list event) :
  photo_then_text sends -> calls_in_order (EvPost rq :: sends).
Proof.
  intros [-> | [(chat & photo & caption & ->) | (chat & photo & caption & text & ->)]];
    right; exists rq.
  - left. reflexivity.
  - right. exists chat, photo, caption. left. reflexivity.
  - right. exists chat, photo, caption. right. exists text. reflexivity.
Qed.

(** The calls of the handler after the save, in the order they are made. *)
Lemma after_save_calls (w : World) (p : string) (s1 : State) :
  names_directory p = false ->
  exists evs,
    trace (snd (after_save w p s1)) = trace s1 ++ evs /\
    calls_in_order (List.filter is_call evs).
Proof.
  intros Hd.
  destruct (after_save_cases w p s1 Hd)
    as [(_ & ->) | (_ & a & s2 & HA & Hrest)].
  { rewrite finish_here.
    destruct (fs s1 !! p); cbn [fst snd trace].
    - eexists. split; [reflexivity|]. left. reflexivity.
    - exists []. rewrite app_nil_r. split; [reflexivity|]. left. reflexivity. }
  destruct (analyze_image_calls w p _prompt_ s1 s2 a HA) as (evsA & HtA & HcA).
  destruct Hrest as [(Hfalsy & ->) | (Htruthy & s3 & Hrest)].
  { rewrite finish_here.
    assert (HA' : calls_in_order (List.filter is_call evsA)).
    { destruct HcA as [(-> & _) | (rq & ->)]; [left; reflexivity|].
      right. exists rq. left. reflexivity. }
    destruct (fs s2 !! p); cbn [fst snd trace]; rewrite HtA.
    - rewrite <- app_assoc. eexists. split; [reflexivity|].
      rewrite List.filter_app. cbn. rewrite app_nil_r. exact HA'.
    - exists evsA. auto. }
  destruct HcA as [(_ & Hf) | (rq & HcA)]; [congruence|].
  assert (Hsends : exists evsN,
             trace s3 = trace s2 ++ evsN /\
             List.filter is_call evsN = List.filter is_send evsN /\
             photo_then_text (List.filter is_send evsN)).
  { destruct Hrest as [(HN & _) | (e & HN & _)];
      exact (notifier_calls w p a s2 s3 _ HN). }
  destruct Hsends as (evsN & HtN & HcN & Hshape).
  assert (Hall : calls_in_order (List.filter is_call (evsA ++ evsN))).
  { rewrite List.filter_app, HcA, HcN. apply calls_after_post. exact Hshape. }
  destruct Hrest as [(_ & ->) | (e & _ & ->)].
  - rewrite finish_here.
    destruct (fs s3 !! p); cbn [fst snd trace]; rewrite HtN, HtA, <- !app_assoc.
    + eexists. split; [reflexivity|].
      rewrite app_assoc, List.filter_app. cbn [List.filter is_call is_post is_send orb].
      rewrite app_nil_r. exact Hall.
    + rewrite app_assoc. rewrite <- app_assoc. exists (evsA ++ evsN).
      rewrite app_assoc. auto.
  - unfold finish.
    destruct (fs s3 !! p); cbn [fst snd trace]; rewrite HtN, HtA, <- !app_assoc.
    + eexists. split; [reflexivity|].
      rewrite app_assoc, List.filter_app. cbn [List.filter is_call is_post is_send orb app].
      rewrite app_nil_r. exact Hall.
    + eexists. split; [reflexivity|].
      rewrite app_assoc, List.filter_app. cbn [List.filter is_call is_post is_send orb app].
      rewrite app_nil_r. exact Hall.
Qed.

(** X1.  Whatever the outcome and whatever the world, the calls a request
    makes to the two providers are, in the order they are made, a beginning
    of: one inference request, then one photo, then one text to the same
    chat.  So no call is repeated, nothing is sent before the inference
    request, and no text is sent before the photo. *)
Theorem X1_no_call_is_repeated (w : World) (image : UploadFile) (s : State) :
  exists evs,
    trace (snd (upload_image w image s)) = trace s ++ evs /\
    calls_in_order (List.filter is_call evs).
Proof.
  destruct (not_allowed (content_type image)) eqn:Hct.
  { apply not_allowed_true in Hct.
    rewrite (upload_image_rejected w image s Hct). cbn [snd trace add_events].
    eexists. split; [reflexivity|]. left. reflexivity. }
  apply not_allowed_false in Hct.
  destruct (names_directory (storage_path image)) eqn:Hd.
  { rewrite (upload_image_unsaved w image s Hct Hd).
    exists []. cbn. rewrite app_nil_r. split; [reflexivity|]. left. reflexivity. }
  rewrite (upload_image_saved w image s Hct Hd).
  destruct (after_save_calls w (storage_path image) (saved image s) Hd)
    as (evs & Ht & Hcalls).
  rewrite Ht. unfold saved at 1. cbn [trace]. rewrite <- app_assoc.
  eexists. split; [reflexivity|].
  rewrite List.filter_app. cbn [List.filter is_call is_post is_send orb app].
  exact Hcalls.
Qed.

(** X2.  The only files a request creates, writes or unlinks are the one at
    its own storage path, in every world and on every path. *)
Theorem X2_only_the_own_file_is_touched (w : World) (image : UploadFile) (s : State) :
  exists evs,
    trace (snd (upload_image w image s)) = trace s ++ evs /\
    List.filter (off_path (storage_path image)) evs = [].
Proof.
  destruct (upload_image_effects w image s) as (evs & Ht & Ho & _).
  exists evs. auto.
Qed.

(** X3.  The success response is given only after a delivery: when the
    handler answers 200 it has made one inference call, sent one photo and
    then the text, both sends completed, the text is a truthy answer, no
    error was logged and the file was unlinked once. *)
Theorem X3_success_means_delivered (w : World) (image : UploadFile) (s : State) :
  fst (upload_image w image s) = success ->
  exists evs photo caption a,
    trace (snd (upload_image w image s)) = trace s ++ evs /\
    List.filter is_send evs =
      [EvSendPhoto (TELEGRAM_CHAT_ID (cfg w)) photo caption;
       EvSendMessage (TELEGRAM_CHAT_ID (cfg w)) a] /\
    truthy a = true /\
    send_photo w (TELEGRAM_CHAT_ID (cfg w)) photo caption = None /\
    send_message w (TELEGRAM_CHAT_ID (cfg w)) a = None /\
    List.filter is_error_log evs = [] /\
    List.length (List.filter is_post evs) = 1%nat /\
    removals (storage_path image) evs = 1%nat.
Proof.
  intros Hs.
  destruct (upload_image_effects w image s) as (evs & Ht & _ & _ & _ & _ & Hok & _).
  destruct (Hok Hs) as (photo & caption & a & H).
  exists evs, photo, caption, a. auto.
Qed.

Lemma X3_witness_photo_jpg :
  exists evs photo caption a,
    trace (snd (upload_image happy_world photo_jpg empty_state)) =
      trace empty_state ++ evs /\
    List.filter is_send evs =
      [EvSendPhoto (TELEGRAM_CHAT_ID (cfg happy_world)) photo caption;
       EvSendMessage (TELEGRAM_CHAT_ID (cfg happy_world)) a] /\
    truthy a = true /\
    send_photo happy_world (TELEGRAM_CHAT_ID (cfg happy_world)) photo caption = None /\
    send_message happy_world (TELEGRAM_CHAT_ID (cfg happy_world)) a = None /\
    List.filter is_error_log evs = [] /\
    List.length (List.filter is_post evs) = 1%nat /\
    removals (storage_path photo_jpg) evs = 1%nat.
Proof.
  apply (X3_success_means_delivered happy_world photo_jpg empty_state).
  vm_compute. reflexivity.
Defined.

(** X4.  Every HTTP error the handler raises (400 or 500) comes with an
    ERROR line in the log of the request. *)
Theorem X4_http_errors_are_logged
    (w : World) (image : UploadFile) (s : State) (st : Z) (detail : string) :
  fst (upload_image w image s) = Raise (HTTPException st detail) ->
  exists evs,
    trace (snd (upload_image w image s)) = trace s ++ evs /\
    List.filter is_error_log evs <> [].
Proof.
  intros He.
  destruct (upload_image_effects w image s) as (evs & Ht & _ & _ & _ & _ & _ & Herr).
  exists evs. split; [exact Ht|]. exact (Herr st detail He).
Qed.

Lemma X4_witness_endpoint_unavailable :
  exists evs,
    trace (snd (upload_image unavailable_world photo_jpg empty_state)) =
      trace empty_state ++ evs /\
    List.filter is_error_log evs <> [].
Proof.
  apply (X4_http_errors_are_logged unavailable_world photo_jpg empty_state
           500 "Failed to analyze the image").
  vm_compute. reflexivity.
Defined.

(** ** The handler, path by path *)

(** X5.  The success path, end to end.  With no other request interfering,
    an upload declared and named as a JPEG, a 200 answer whose first-choice
    content is truthy and two sends that complete give the 200 response; the
    photo sent is the uploaded bytes, the text sent is the answer, and the
    file is unlinked after the sends. *)
Theorem X5_success_path_end_to_end
    (w : World) (image : UploadFile) (s : State) (r : http_response)
    (body a : pyobj) :
  sequential w ->
  content_type image = Some "image/jpeg" ->
  names_directory (storage_path image) = false ->
  guess_type w (storage_path image) = Some "image/jpeg" ->
  post w (inference_request (cfg w) _prompt_ (content image)) = Responded r ->
  resp_status r = 200 ->
  resp_json r = Some body ->
  first_choice_content body = Ok a ->
  truthy a = true ->
  send_photo w (TELEGRAM_CHAT_ID (cfg w)) (content image)
    (strftime (now w (trace (saved image s) ++
                      [EvPost (inference_request (cfg w) _prompt_ (content image));
                       EvLog INFO LogAnalysisResult;
                       EvLog INFO (LogAnswer a)]))) = None ->
  send_message w (TELEGRAM_CHAT_ID (cfg w)) a = None ->
  upload_image w image s =
    (Ok (JSONResponse
           (PyDict [ ("message",
                      PyStr "Image received, analyzed, and forwarded to Telegram") ])
           200),
     {| fs := delete (storage_path image) (fs s);
        trace :=
          trace (saved image s) ++
          [ EvPost (inference_request (cfg w) _prompt_ (content image));
            EvLog INFO LogAnalysisResult;
            EvLog INFO (LogAnswer a);
            EvSendPhoto (TELEGRAM_CHAT_ID (cfg w)) (content image)
              (strftime (now w (trace (saved image s) ++
                                [EvPost (inference_request (cfg w) _prompt_ (content image));
                                 EvLog INFO LogAnalysisResult;
                                 EvLog INFO (LogAnswer a)])));
            EvLog INFO
              (LogImageSent (TELEGRAM_CHAT_ID (cfg w))
                 (strftime (now w (trace (saved image s) ++
                                   [EvPost (inference_request (cfg w) _prompt_ (content image));
                                    EvLog INFO LogAnalysisResult;
                                    EvLog INFO (LogAnswer a)]))));
            EvSendMessage (TELEGRAM_CHAT_ID (cfg w)) a;
            EvLog INFO (LogAnalysisSent (TELEGRAM_CHAT_ID (cfg w)));
            EvRemove (storage_path image);
            EvLog INFO (LogFileRemoved (storage_path image)) ] |}).
Proof.
  intros Hseq Hct Hd Hg Hpost Hst Hjson Hc Ht Hphoto Hmessage.
  set (p := storage_path image) in *.
  set (rq := inference_request (cfg w) _prompt_ (content image)) in *.
  assert (Hof : analysis_of (post w rq) =
                (a, [EvLog INFO LogAnalysisResult; EvLog INFO (LogAnswer a)])).
  { rewrite Hpost. unfold analysis_of, response_json. rewrite Hst, Hjson.
    cbn [Z.eqb Pos.eqb rbind]. rewrite Hc. reflexivity. }
  pose proof (analyze_image_run w p _prompt_ (saved image s) (content image) Hd
                (saved_lookup image s)) as HA.
  fold rq in HA. rewrite Hof, Hseq in HA. cbn [fst snd] in HA.
  match type of HA with _ = (_, ?st) => set (s2 := st) in * end.
  assert (Hp2 : fs s2 !! p = Some (content image)) by apply saved_lookup.
  pose proof (notifier_run w p a s2 (content image) Hd Hp2) as HN.
  cbv zeta in HN. subst s2. cbn [fs trace] in HN.
  rewrite Hphoto, Hmessage, !Hseq in HN. unfold add_events in HN. cbn [fs trace] in HN.
  rewrite <- !app_assoc in HN. cbn [app] in HN.
  rewrite (upload_image_saved w image s Hct Hd). fold p.
  apply not_allowed_false in Hg.
  unfold after_save. cbv zeta. rewrite Hg.
  rewrite (bind_ok _ _ _ _ _ HA), Ht. cbn [negb].
  rewrite (bind_ok _ _ _ _ _ (try_ok _ _ _ _ _ HN)).
  rewrite (cleanup_then p _ _ Hd). cbn [fs trace].
  pose proof (saved_lookup image s) as Hl. fold p in Hl. rewrite Hl.
  run_monad. unfold p. rewrite saved_delete. reflexivity.
Qed.

Lemma X5_witness_photo_jpg :
  upload_image happy_world photo_jpg empty_state =
    (Ok (JSONResponse
           (PyDict [ ("message",
                      PyStr "Image received, analyzed, and forwarded to Telegram") ])
           200),
     {| fs := delete (storage_path photo_jpg) (fs empty_state);
        trace :=
          trace (saved photo_jpg empty_state) ++
          [ EvPost (inference_request (cfg happy_world) _prompt_ (content photo_jpg));
            EvLog INFO LogAnalysisResult;
            EvLog INFO (LogAnswer no_birds);
            EvSendPhoto (TELEGRAM_CHAT_ID (cfg happy_world)) (content photo_jpg)
              (strftime (now happy_world (trace (saved photo_jpg empty_state) ++
                 [EvPost (inference_request (cfg happy_world) _prompt_ (content photo_jpg));
                  EvLog INFO LogAnalysisResult;
                  EvLog INFO (LogAnswer no_birds)])));
            EvLog INFO
              (LogImageSent (TELEGRAM_CHAT_ID (cfg happy_world))
                 (strftime (now happy_world (trace (saved photo_jpg empty_state) ++
                    [EvPost (inference_request (cfg happy_world) _prompt_ (content photo_jpg));
                     EvLog INFO LogAnalysisResult;
                     EvLog INFO (LogAnswer no_birds)]))));
            EvSendMessage (TELEGRAM_CHAT_ID (cfg happy_world)) no_birds;
            EvLog INFO (LogAnalysisSent (TELEGRAM_CHAT_ID (cfg happy_world)));
            EvRemove (storage_path photo_jpg);
            EvLog INFO (LogFileRemoved (storage_path photo_jpg)) ] |}).
Proof.
  apply (X5_success_path_end_to_end happy_world photo_jpg empty_state
           {| resp_status := 200; resp_text := "{...}";
              resp_json := Some (completion no_birds) |}
           (completion no_birds) no_birds).
  - apply sequential_nobody.
  - reflexivity.
  - reflexivity.
  - vm_compute. reflexivity.
  - reflexivity.
  - reflexivity.
  - reflexivity.
  - reflexivity.
  - reflexivity.
  - reflexivity.
  - reflexivity.
Defined.

(** X6.  Any falsy first-choice content of a 200 answer (JSON [null], an
    empty string, zero, [false], an empty list or object) is treated as a
    failed analysis: the file is unlinked, the response is 500 and nothing
    is sent to the chat. *)
Theorem X6_falsy_answer_is_analysis_failure
    (w : World) (image : UploadFile) (s : State) (r : http_response)
    (body a : pyobj) :
  sequential w ->
  content_type image = Some "image/jpeg" ->
  names_directory (storage_path image) = false ->
  guess_type w (storage_path image) = Some "image/jpeg" ->
  post w (inference_request (cfg w) _prompt_ (content image)) = Responded r ->
  resp_status r = 200 ->
  resp_json r = Some body ->
  first_choice_content body = Ok a ->
  truthy a = false ->
  upload_image w image s =
    (Raise (HTTPException 500 "Failed to analyze the image"),
     {| fs := delete (storage_path image) (fs s);
        trace := trace (saved image s) ++
                 [EvPost (inference_request (cfg w) _prompt_ (content image));
                  EvLog INFO LogAnalysisResult;
                  EvLog INFO (LogAnswer a);
                  EvRemove (storage_path image);
                  EvLog ERROR LogAnalysisFailed] |}).
Proof.
  intros Hseq Hct Hd Hg Hpost Hst Hjson Hc Hf.
  assert (HA : analysis_of (post w (inference_request (cfg w) _prompt_ (content image)))
               = (a, [EvLog INFO LogAnalysisResult; EvLog INFO (LogAnswer a)])).
  { rewrite Hpost. unfold analysis_of, response_json. rewrite Hst, Hjson.
    cbn [Z.eqb Pos.eqb rbind]. rewrite Hc. reflexivity. }
  rewrite (upload_image_saved w image s Hct Hd).
  rewrite (after_save_analysis_falsy w _ _ (content image) Hseq Hd
             (saved_lookup image s) Hg) by (rewrite HA; exact Hf).
  rewrite HA, saved_delete. reflexivity.
Qed.

Lemma X6_witness_null_content :
  upload_image null_world photo_jpg empty_state =
    (Raise (HTTPException 500 "Failed to analyze the image"),
     {| fs := delete (storage_path photo_jpg) (fs empty_state);
        trace := trace (saved photo_jpg empty_state) ++
                 [EvPost (inference_request (cfg null_world) _prompt_ (content photo_jpg));
                  EvLog INFO LogAnalysisResult;
                  EvLog INFO (LogAnswer PyNone);
                  EvRemove (storage_path photo_jpg);
                  EvLog ERROR LogAnalysisFailed] |}).
Proof.
  apply (X6_falsy_answer_is_analysis_failure null_world photo_jpg empty_state
           {| resp_status := 200; resp_text := "{...}";
              resp_json := Some (completion PyNone) |}
           (completion PyNone) PyNone).
  - apply sequential_nobody.
  - reflexivity.
  - reflexivity.
  - vm_compute. reflexivity.
  - reflexivity.
  - reflexivity.
  - reflexivity.
  - reflexivity.
  - reflexivity.
Defined.

(** X7.  The content check decides by the stored name, not by the bytes.
    In every world, an upload is answered 400 (invalid content) only when
    the mimetypes table does not map its storage path to [image/jpeg].
    When no other request interferes, a stored upload whose path the table
    does not map to [image/jpeg] is answered 400, and replacing the bytes
    of an upload by any others never changes whether it is. *)
Theorem X7_content_check_is_by_name
    (w : World) (image : UploadFile) (s : State) :
  content_type image = Some "image/jpeg" ->
  names_directory (storage_path image) = false ->
  (fst (upload_image w image s) = Raise (HTTPException 400 "Invalid image content") ->
   guess_type w (storage_path image) <> Some "image/jpeg") /\
  (sequential w ->
   (guess_type w (storage_path image) <> Some "image/jpeg" ->
    fst (upload_image w image s) = Raise (HTTPException 400 "Invalid image content")) /\
   (forall bytes,
      fst (upload_image w
             {| content_type := content_type image; filename := filename image;
                content := bytes |} s)
      = Raise (HTTPException 400 "Invalid image content") <->
      fst (upload_image w image s) = Raise (HTTPException 400 "Invalid image content"))).
Proof.
  intros Hct Hd.
  assert (Hiff : forall img,
            content_type img = Some "image/jpeg" ->
            names_directory (storage_path img) = false ->
            (fst (upload_image w img s) = Raise (HTTPException 400 "Invalid image content") <->
             guess_type w (storage_path img) <> Some "image/jpeg")).
  { intros img Hc Hn. split.
    - intros Hbad Hg.
      destruct (content_check_passes_by_name w img s Hc Hn Hg) as (_ & _ & Hne).
      contradiction.
    - intros Hg. now rewrite (content_check_rejects_by_name w img s Hc Hn Hg). }
  split; [apply Hiff; assumption|].
  intros _. split; [apply Hiff; assumption|].
  intros bytes.
  rewrite (Hiff image Hct Hd).
  apply (Hiff {| content_type := content_type image; filename := filename image;
                 content := bytes |}); assumption.
Qed.

Lemma X7_witness_jpeg_named_png :
  (fst (upload_image happy_world photo_png empty_state) =
     Raise (HTTPException 400 "Invalid image content") ->
   guess_type happy_world (storage_path photo_png) <> Some "image/jpeg") /\
  (sequential happy_world ->
   (guess_type happy_world (storage_path photo_png) <> Some "image/jpeg" ->
    fst (upload_image happy_world photo_png empty_state) =
      Raise (HTTPException 400 "Invalid image content")) /\
   (forall bytes,
      fst (upload_image happy_world
             {| content_type := content_type photo_png; filename := filename photo_png;
                content := bytes |} empty_state)
      = Raise (HTTPException 400 "Invalid image content") <->
      fst (upload_image happy_world photo_png empty_state) =
        Raise (HTTPException 400 "Invalid image content"))).
Proof.
  apply (X7_content_check_is_by_name happy_world photo_png empty_state).
  - reflexivity.
  - reflexivity.
Defined.

(** X8.  An upload declared [image/jpeg] whose name ends in [/], or whose
    last component is [.] or [..], cannot be stored: [IsADirectoryError]
    leaves the handler (no HTTP error is raised), and neither the storage
    nor the log changes. *)
Theorem X8_directory_name_is_not_stored
    (w : World) (image : UploadFile) (s : State) :
  content_type image = Some "image/jpeg" ->
  directory_name (basename (filename image)) = true ->
  upload_image w image s = (Raise (IsADirectoryError (storage_path image)), s).
Proof.
  intros Hct Hn. apply upload_image_unsaved; [exact Hct|].
  now rewrite names_directory_storage_path.
Qed.

Lemma X8_witness_trailing_slash :
  upload_image happy_world trailing_slash busy_state =
    (Raise (IsADirectoryError (storage_path trailing_slash)), busy_state).
Proof.
  apply (X8_directory_name_is_not_stored happy_world trailing_slash busy_state).
  - reflexivity.
  - reflexivity.
Defined.

Lemma rfind_after_sep (c : ascii) (s t : string) :
  rfind c t = -1 -> rfind c (s +:+ String c t) = Z.of_nat (String.length s).
Proof.
  intros Ht. induction s as [|a rest IH].
  - change ("" +:+ String c t) with (String c t). cbn [rfind String.length].
    rewrite Ht, Ascii.eqb_refl. reflexivity.
  - change (String a rest +:+ String c t) with (String a (rest +:+ String c t)).
    cbn [rfind String.length]. rewrite IH.
    destruct (0 <=? Z.of_nat (String.length rest)) eqn:E; [lia|].
    apply Z.leb_gt in E. lia.
Qed.

Lemma str_drop_app (s t : string) : str_drop (String.length s) (s +:+ t) = t.
Proof. induction s as [|a rest IH]; [reflexivity | exact IH]. Qed.

(** X9.  Whatever precedes the last [/] of the supplied name is discarded:
    a name [dir/name], with any directory part and a [name] without
    separator, is stored at [./uploads/name].  Two uploads with the same
    last component share one storage path. *)
Theorem X9_directory_part_is_discarded
    (ct : option string) (dir name : string) (bytes : list Byte.byte) :
  rfind sep name = -1 ->
  storage_path {| content_type := ct; filename := dir +:+ String sep name;
                  content := bytes |}
  = "./uploads/" +:+ name.
Proof.
  intros Hn. rewrite storage_path_eq. cbn [filename]. f_equal.
  unfold basename, slice_from. rewrite (rfind_after_sep sep dir name Hn).
  replace (Z.to_nat (Z.of_nat (String.length dir) + 1))
    with (String.length (dir +:+ String sep "")).
  - replace (dir +:+ String sep name) with ((dir +:+ String sep "") +:+ name).
    + apply str_drop_app.
    + induction dir as [|a rest IH]; [reflexivity|].
      change ((String a rest +:+ String sep "") +:+ name)
        with (String a ((rest +:+ String sep "") +:+ name)).
      now rewrite IH.
  - induction dir as [|a rest IH]; [reflexivity|].
    change (String.length (String a rest +:+ String sep ""))
      with (S (String.length (rest +:+ String sep ""))).
    rewrite IH. cbn [String.length]. lia.
Qed.

Lemma X9_witness_traversal :
  storage_path traversal_jpg = "./uploads/" +:+ "photo.jpg".
Proof.
  apply (X9_directory_part_is_discarded (Some "image/jpeg") "../../etc/cron.d"
           "photo.jpg" jpeg_bytes).
  reflexivity.
Defined.

(** ** The Analyzer *)

(** X10.  Invoked on a path at which no file is stored, the Analyzer sends
    no request: it logs the [FileNotFoundError] of the open, returns [None]
    and leaves the storage as it was. *)
Theorem X10_analyzer_without_file_sends_nothing
    (w : World) (path prompt : string) (s : State) :
  names_directory path = false ->
  fs s !! path = None ->
  analyze_image w path prompt s =
    (Ok PyNone,
     {| fs := fs s;
        trace := trace s ++
                 [EvLog ERROR (LogAnalyzeException (FileNotFoundError path))] |}).
Proof.
  intros Hd Hp.
  apply (analyze_image_unreadable w path prompt s (FileNotFoundError path)).
  unfold read_rb. now rewrite Hd, Hp.
Qed.

Lemma X10_witness_empty_storage :
  analyze_image happy_world "./uploads/photo.jpg" _prompt_ empty_state =
    (Ok PyNone,
     {| fs := fs empty_state;
        trace := trace empty_state ++
                 [EvLog ERROR
                    (LogAnalyzeException (FileNotFoundError "./uploads/photo.jpg"))] |}).
Proof.
  apply (X10_analyzer_without_file_sends_nothing happy_world "./uploads/photo.jpg"
           _prompt_ empty_state).
  - reflexivity.
  - reflexivity.
Defined.

(** X11.  An answer comes from a 200 response only: when the Analyzer
    returns a value other than [None], the image was read, the endpoint
    responded with status 200 to the request built from it, the body was
    JSON, and the value is its first choice's message content. *)
Theorem X11_answer_only_from_200
    (w : World) (path prompt : string) (s : State) (a : pyobj) :
  fst (analyze_image w path prompt s) = Ok a ->
  a <> PyNone ->
  exists data r body,
    fs s !! path = Some data /\
    post w (inference_request (cfg w) prompt data) = Responded r /\
    resp_status r = 200 /\
    resp_json r = Some body /\
    first_choice_content body = Ok a.
Proof.
  intros Hok Hne.
  destruct (read_rb_cases path s) as [(data & Hd & Hp) | (e & He)].
  2:{ rewrite (analyze_image_unreadable w path prompt s e He) in Hok.
      cbn in Hok. congruence. }
  rewrite (analyze_image_run w path prompt s data Hd Hp) in Hok.
  cbn [fst] in Hok. unfold analysis_of in Hok.
  destruct (post w (inference_request (cfg w) prompt data)) as [r|e] eqn:Hpost;
    [|cbn in Hok; congruence].
  destruct (resp_status r =? 200) eqn:Hst; [|cbn in Hok; congruence].
  apply Z.eqb_eq in Hst.
  unfold response_json in Hok.
  destruct (resp_json r) as [body|] eqn:Hjson; [|cbn in Hok; congruence].
  cbn [rbind] in Hok.
  destruct (first_choice_content body) as [answer|e] eqn:Hc; [|cbn in Hok; congruence].
  cbn [fst] in Hok. injection Hok as ->.
  exists data, r, body. auto.
Qed.

Lemma X11_witness_no_birds :
  exists data r body,
    fs (saved photo_jpg empty_state) !! "./uploads/photo.jpg" = Some data /\
    post happy_world (inference_request (cfg happy_world) _prompt_ data) = Responded r /\
    resp_status r = 200 /\
    resp_json r = Some body /\
    first_choice_content body = Ok no_birds.
Proof.
  apply (X11_answer_only_from_200 happy_world "./uploads/photo.jpg" _prompt_
           (saved photo_jpg empty_state) no_birds).
  - vm_compute. reflexivity.
  - discriminate.
Defined.

(** ** The Notifier *)

(** X12.  When the photo send raises, the text is never sent: the Notifier
    re-raises the same exception after the one photo call, and logs it only
    when it is a [TelegramError] or a [NetworkError]. *)
Theorem X12_failed_photo_stops_the_delivery
    (w : World) (path : string) (text : pyobj) (s : State)
    (photo : list Byte.byte) (e : exn) :
  names_directory path = false ->
  fs s !! path = Some photo ->
  send_photo w (TELEGRAM_CHAT_ID (cfg w)) photo (strftime (now w (trace s))) = Some e ->
  send_image_and_analysis_to_telegram w path text s =
    (Raise e,
     {| fs := concurrent w AwaitPhoto (fs s);
        trace := trace s ++
                 EvSendPhoto (TELEGRAM_CHAT_ID (cfg w)) photo (strftime (now w (trace s)))
                 :: (if is_telegram_error e
                     then [EvLog ERROR (LogTelegramError e)] else []) |}).
Proof.
  intros Hd Hp Hphoto.
  rewrite (notifier_run w path text s photo Hd Hp). cbv zeta. rewrite Hphoto.
  destruct (is_telegram_error e); unfold add_events; cbn [fs trace];
    rewrite <- ?app_assoc; reflexivity.
Qed.

Lemma X12_witness_refused_photo :
  send_image_and_analysis_to_telegram refusing_chat_world "./uploads/photo.jpg"
      no_birds (saved photo_jpg empty_state) =
    (Raise (TelegramError "Bad Request"),
     {| fs := concurrent refusing_chat_world AwaitPhoto (fs (saved photo_jpg empty_state));
        trace := trace (saved photo_jpg empty_state) ++
                 EvSendPhoto (TELEGRAM_CHAT_ID (cfg refusing_chat_world)) jpeg_bytes
                   (strftime (now refusing_chat_world (trace (saved photo_jpg empty_state))))
                 :: (if is_telegram_error (TelegramError "Bad Request")
                     then [EvLog ERROR (LogTelegramError (TelegramError "Bad Request"))]
                     else []) |}).
Proof.
  apply (X12_failed_photo_stops_the_delivery refusing_chat_world "./uploads/photo.jpg"
           no_birds (saved photo_jpg empty_state) jpeg_bytes (TelegramError "Bad Request")).
  - reflexivity.
  - vm_compute. reflexivity.
  - reflexivity.
Defined.

(** X13.  When the image is not in the storage, the Notifier sends nothing
    and logs nothing: the [FileNotFoundError] of the open is not one of the
    errors it catches and leaves it as it is. *)
Theorem X13_notifier_without_file_sends_nothing
    (w : World) (path : string) (text : pyobj) (s : State) :
  names_directory path = false ->
  fs s !! path = None ->
  send_image_and_analysis_to_telegram w path text s = (Raise (FileNotFoundError path), s).
Proof.
  intros Hd Hp.
  apply (notifier_unreadable w path text s (FileNotFoundError path)).
  unfold read_rb. now rewrite Hd, Hp.
Qed.

Lemma X13_witness_empty_storage :
  send_image_and_analysis_to_telegram happy_world "./uploads/photo.jpg" no_birds
      empty_state =
    (Raise (FileNotFoundError "./uploads/photo.jpg"), empty_state).
Proof.
  apply (X13_notifier_without_file_sends_nothing happy_world "./uploads/photo.jpg"
           no_birds empty_state).
  - reflexivity.
  - reflexivity.
Defined.

(** ** Process start *)

Lemma unset_false (v : option string) :
  unset v = false <-> exists x, v = Some x /\ x <> "".
Proof.
  destruct v as [x|]; cbn.
  - split.
    + intros H. exists x. split; [reflexivity|]. intros ->. discriminate.
    + intros (y & [= <-] & Hne). now apply String.eqb_neq.
  - split; [discriminate|]. intros (y & H & _). discriminate.
Qed.

(** X14.  The module loads exactly when the four required variables are
    set and not empty; otherwise it raises at import, before any request
    can be served. *)
Theorem X14_module_loads_iff_all_four_set (environ : gmap string string) :
  (exists st, load_module environ = Started st) <->
  (unset (environ !! "TELEGRAM_TOKEN") = false /\
   unset (environ !! "TELEGRAM_CHAT_ID") = false /\
   unset (environ !! "GROQ_API_URL") = false /\
   unset (environ !! "GROQ_API_KEY") = false).
Proof.
  unfold load_module. cbv zeta.
  destruct (unset (environ !! "TELEGRAM_TOKEN")),
           (unset (environ !! "TELEGRAM_CHAT_ID")),
           (unset (environ !! "GROQ_API_URL")),
           (unset (environ !! "GROQ_API_KEY")); cbn [orb];
    (split; [intros (st & H); try discriminate; auto
            | intros (H1 & H2 & H3 & H4); try discriminate; eauto]).
Qed.

(** X15.  A loaded module holds the values of the environment, none of the
    four required ones is empty, and the root path is [/firebot] unless
    [ROOT_PATH] is set (an empty [ROOT_PATH] is kept as it is). *)
Theorem X15_loaded_settings_are_the_environment
    (environ : gmap string string) (st : Settings) :
  load_module environ = Started st ->
  environ !! "TELEGRAM_TOKEN" = Some (TELEGRAM_TOKEN st) /\ TELEGRAM_TOKEN st <> "" /\
  environ !! "TELEGRAM_CHAT_ID" = Some (TELEGRAM_CHAT_ID (settings st)) /\
  TELEGRAM_CHAT_ID (settings st) <> "" /\
  environ !! "GROQ_API_URL" = Some (GROQ_API_URL (settings st)) /\
  GROQ_API_URL (settings st) <> "" /\
  environ !! "GROQ_API_KEY" = Some (GROQ_API_KEY (settings st)) /\
  GROQ_API_KEY (settings st) <> "" /\
  ROOT_PATH st = match environ !! "ROOT_PATH" with
                 | Some root => root
                 | None => "/firebot"
                 end.
Proof.
  unfold load_module. cbv zeta.
  destruct (unset (environ !! "TELEGRAM_TOKEN")) eqn:H1; [discriminate|].
  destruct (unset (environ !! "TELEGRAM_CHAT_ID")) eqn:H2; [discriminate|].
  destruct (unset (environ !! "GROQ_API_URL")) eqn:H3; [discriminate|].
  destruct (unset (environ !! "GROQ_API_KEY")) eqn:H4; [discriminate|].
  cbn [orb].
  intros [= <-]. cbn [TELEGRAM_TOKEN ROOT_PATH settings TELEGRAM_CHAT_ID GROQ_API_URL
                      GROQ_API_KEY].
  apply unset_false in H1, H2, H3, H4.
  destruct H1 as (x1 & -> & N1), H2 as (x2 & -> & N2),
           H3 as (x3 & -> & N3), H4 as (x4 & -> & N4).
  cbn [default]. repeat split; auto.
Qed.

Lemma X15_witness_sample_environ :
  sample_environ !! "TELEGRAM_TOKEN" = Some "123456:bot-token" /\
  sample_environ !! "GROQ_API_KEY" = Some "gsk_key" /\
  exists st,
    load_module sample_environ = Started st /\
    ROOT_PATH st = "/firebot" /\
    GROQ_API_KEY (settings st) <> "".
Proof.
  split; [vm_compute; reflexivity|]. split; [vm_compute; reflexivity|].
  eexists. split; [vm_compute; reflexivity|].
  match goal with
  | |- ROOT_PATH ?st = _ /\ _ =>
      pose proof (X15_loaded_settings_are_the_environment sample_environ st) as H
  end.
  destruct H as (_ & _ & _ & _ & _ & _ & _ & Hkey & Hroot); [vm_compute; reflexivity|].
  split; [reflexivity | exact Hkey].
Defined.

(** ** The image payload *)

Lemma b64encode_length_upto (n : nat) (bs : list Byte.byte) :
  (List.length bs <= n)%nat ->
  String.length (b64encode bs) = (4 * ((List.length bs + 2) / 3))%nat.
Proof.
  revert bs. induction n as [|n IH]; intros bs Hn.
  - destruct bs; [reflexivity | cbn in Hn; lia].
  - destruct bs as [|a [|b [|c rest]]]; try reflexivity.
    cbn [b64encode String.length List.length].
    rewrite IH by (cbn [List.length] in Hn; lia).
    replace (S (S (S (List.length rest))) + 2)%nat
      with ((List.length rest + 2) + 1 * 3)%nat by lia.
    rewrite Nat.div_add by lia. lia.
Qed.

(** X16.  The base64 text of an image of [n] bytes has [4 * ceil(n / 3)]
    characters, so the data URI the Analyzer posts is 23 characters longer
    than that: padding always completes the last group of four. *)
Theorem X16_data_uri_length (bs : list Byte.byte) :
  String.length (b64encode bs) = (4 * ((List.length bs + 2) / 3))%nat /\
  String.length ("data:image/jpeg;base64," +:+ b64encode bs)
  = (23 + 4 * ((List.length bs + 2) / 3))%nat.
Proof.
  pose proof (b64encode_length_upto (List.length bs) bs (Nat.le_refl _)) as H.
  split; [exact H|].
  change (String.length ("data:image/jpeg;base64," +:+ b64encode bs))
    with (23 + String.length (b64encode bs))%nat.
  now rewrite H.
Qed.

(** ** A delivery that fails half way *)

(** X17.  When the photo send completes and the text send raises, the photo
    stays sent: the chat has the image without its analysis, the error is
    logged by the Notifier (when it is a [TelegramError] or [NetworkError])
    and again by the handler, the file is unlinked and the response is 500.
    Nothing reports the part that succeeded. *)
Theorem X17_text_failure_after_photo
    (w : World) (image : UploadFile) (s : State) (r : http_response)
    (body a : pyobj) (e : exn) :
  sequential w ->
  content_type image = Some "image/jpeg" ->
  names_directory (storage_path image) = false ->
  guess_type w (storage_path image) = Some "image/jpeg" ->
  post w (inference_request (cfg w) _prompt_ (content image)) = Responded r ->
  resp_status r = 200 ->
  resp_json r = Some body ->
  first_choice_content body = Ok a ->
  truthy a = true ->
  send_photo w (TELEGRAM_CHAT_ID (cfg w)) (content image)
    (strftime (now w (trace (saved image s) ++
                      [EvPost (inference_request (cfg w) _prompt_ (content image));
                       EvLog INFO LogAnalysisResult;
                       EvLog INFO (LogAnswer a)]))) = None ->
  send_message w (TELEGRAM_CHAT_ID (cfg w)) a = Some e ->
  upload_image w image s =
    (Raise (HTTPException 500 "Failed to send image to Telegram"),
     {| fs := delete (storage_path image) (fs s);
        trace :=
          trace (saved image s) ++
          [ EvPost (inference_request (cfg w) _prompt_ (content image));
            EvLog INFO LogAnalysisResult;
            EvLog INFO (LogAnswer a);
            EvSendPhoto (TELEGRAM_CHAT_ID (cfg w)) (content image)
              (strftime (now w (trace (saved image s) ++
                                [EvPost (inference_request (cfg w) _prompt_ (content image));
                                 EvLog INFO LogAnalysisResult;
                                 EvLog INFO (LogAnswer a)])));
            EvLog INFO
              (LogImageSent (TELEGRAM_CHAT_ID (cfg w))
                 (strftime (now w (trace (saved image s) ++
                                   [EvPost (inference_request (cfg w) _prompt_ (content image));
                                    EvLog INFO LogAnalysisResult;
                                    EvLog INFO (LogAnswer a)]))));
            EvSendMessage (TELEGRAM_CHAT_ID (cfg w)) a ]
          ++ (if is_telegram_error e then [EvLog ERROR (LogTelegramError e)] else [])
          ++ [ EvLog ERROR (LogTelegramFailed e);
               EvRemove (storage_path image) ] |}).
Proof.
  intros Hseq Hct Hd Hg Hpost Hst Hjson Hc Ht Hphoto Hmessage.
  set (p := storage_path image) in *.
  set (rq := inference_request (cfg w) _prompt_ (content image)) in *.
  assert (Hof : analysis_of (post w rq) =
                (a, [EvLog INFO LogAnalysisResult; EvLog INFO (LogAnswer a)])).
  { rewrite Hpost. unfold analysis_of, response_json. rewrite Hst, Hjson.
    cbn [Z.eqb Pos.eqb rbind]. rewrite Hc. reflexivity. }
  pose proof (analyze_image_run w p _prompt_ (saved image s) (content image) Hd
                (saved_lookup image s)) as HA.
  fold rq in HA. rewrite Hof, Hseq in HA. cbn [fst snd] in HA.
  match type of HA with _ = (_, ?st) => set (s2 := st) in * end.
  assert (Hp2 : fs s2 !! p = Some (content image)) by apply saved_lookup.
  pose proof (notifier_run w p a s2 (content image) Hd Hp2) as HN.
  cbv zeta in HN. subst s2. cbn [fs trace] in HN.
  rewrite Hphoto, Hmessage, !Hseq in HN.
  pose proof (saved_lookup image s) as Hl. fold p in Hl.
  rewrite (upload_image_saved w image s Hct Hd). fold p.
  rewrite (after_save_delivery_raises w p _ _ _ a e (content image) Hd Hg HA Ht HN)
    by (destruct (is_telegram_error e); exact Hl).
  unfold delivery_failed. f_equal.
  destruct (is_telegram_error e); unfold add_events; cbn [fs trace];
    rewrite <- ?app_assoc; cbn [app]; unfold p; rewrite saved_delete; reflexivity.
Qed.

Lemma X17_witness_text_times_out :
  upload_image (world_of (http_ok (completion no_birds)) None
                  (Some (NetworkError "Timed out")) nobody) photo_jpg empty_state =
    (Raise (HTTPException 500 "Failed to send image to Telegram"),
     {| fs := delete (storage_path photo_jpg) (fs empty_state);
        trace :=
          trace (saved photo_jpg empty_state) ++
          [ EvPost (inference_request sample_cfg _prompt_ (content photo_jpg));
            EvLog INFO LogAnalysisResult;
            EvLog INFO (LogAnswer no_birds);
            EvSendPhoto "-100200300" (content photo_jpg) (strftime noon);
            EvLog INFO (LogImageSent "-100200300" (strftime noon));
            EvSendMessage "-100200300" no_birds ]
          ++ (if is_telegram_error (NetworkError "Timed out")
              then [EvLog ERROR (LogTelegramError (NetworkError "Timed out"))] else [])
          ++ [ EvLog ERROR (LogTelegramFailed (NetworkError "Timed out"));
               EvRemove (storage_path photo_jpg) ] |}).
Proof.
  apply (X17_text_failure_after_photo
           (world_of (http_ok (completion no_birds)) None
              (Some (NetworkError "Timed out")) nobody)
           photo_jpg empty_state
           {| resp_status := 200; resp_text := "{...}";
              resp_json := Some (completion no_birds) |}
           (completion no_birds) no_birds (NetworkError "Timed out")).
  - apply sequential_nobody.
  - reflexivity.
  - reflexivity.
  - vm_compute. reflexivity.
  - reflexivity.
  - reflexivity.
  - reflexivity.
  - reflexivity.
  - reflexivity.
  - reflexivity.
  - reflexivity.
Defined.
